(** * QAP workflow builders: resource pool resolution and graph wiring

    A shallow embedding of [qap/qap_workflows.py]: the builders that
    resolve missing resources of the resource pool, wire Nipype nodes
    and hand every referenced output to a data sink. *)

From stdpp Require Import gmap strings list fin_maps pretty.
From Stdlib Require Import ZArith Ascii.

Set Warnings "-register-all".
Local Open Scope string_scope.
Local Open Scope list_scope.
Local Open Scope nat_scope.

(** ** Python values *)

(** The values the resource pool and the config hold: file paths,
    scalar settings, [(node, output_name)] tuples, lists, the node objects
    of the graph engine and function objects. *)
Inductive pyval : Type :=
| PyNone
| PyBool (b : bool)
| PyInt (z : Z)
| PyStr (s : string)
| PyTuple (items : list pyval)
| PyList (items : list pyval)
| PyNode (id : nat)
| PyFunc (f : string).

Inductive exn : Type :=
| KeyError (key : string)
| ValueError
| TypeError
| AttributeError
| Failure (msg : string).

Inductive res (A : Type) : Type :=
| Ok (a : A)
| Err (e : exn).
Arguments Ok {A} a.
Arguments Err {A} e.

(** [isinstance(v, tuple)] *)
Definition is_tuple (v : pyval) : bool :=
  match v with PyTuple _ => true | _ => false end.

(** Numbers and booleans compare by value ([True == 1]). *)
Definition as_number (v : pyval) : option Z :=
  match v with
  | PyBool b => Some (if b then 1 else 0)%Z
  | PyInt z => Some z
  | _ => None
  end.

(** Python's [==]. Sequences compare element by element, node and
    function objects by identity. *)
Fixpoint py_eqb (v w : pyval) {struct v} : bool :=
  let fix items_eqb (l : list pyval) (m : list pyval) {struct l} : bool :=
    match l, m with
    | [], [] => true
    | x :: l', y :: m' => py_eqb x y && items_eqb l' m'
    | _, _ => false
    end in
  match v, w with
  | PyNone, PyNone => true
  | PyBool b, _ =>
      match as_number w with
      | Some z => Z.eqb (if b then 1 else 0) z
      | None => false
      end
  | PyInt z, _ =>
      match as_number w with Some z' => Z.eqb z z' | None => false end
  | PyStr s, PyStr t => String.eqb s t
  | PyTuple l, PyTuple m => items_eqb l m
  | PyList l, PyList m => items_eqb l m
  | PyNode i, PyNode j => Nat.eqb i j
  | PyFunc f, PyFunc g => String.eqb f g
  | _, _ => false
  end.

(** Truth value of a Python object. *)
Definition py_truth (v : pyval) : bool :=
  match v with
  | PyNone => false
  | PyBool b => b
  | PyInt z => negb (Z.eqb z 0)
  | PyStr s => negb (String.eqb s "")
  | PyTuple l | PyList l => match l with [] => false | _ => true end
  | PyNode _ | PyFunc _ => true
  end.

(** The characters of a string, as one-character strings. *)
Fixpoint chars (s : string) : list pyval :=
  match s with
  | EmptyString => []
  | String c s' => PyStr (String c EmptyString) :: chars s'
  end.

(** [len(v)]: defined on sequences, a [TypeError] elsewhere. *)
Definition py_len (v : pyval) : res nat :=
  match v with
  | PyStr s => Ok (String.length s)
  | PyTuple l | PyList l => Ok (length l)
  | _ => Err TypeError
  end.

(** [a, b = v]: any iterable of exactly two items unpacks, a string
    included; another length is a [ValueError], a value that is not
    iterable a [TypeError]. *)
Definition unpack_items (l : list pyval) : res (pyval * pyval) :=
  match l with
  | [a; b] => Ok (a, b)
  | _ => Err ValueError
  end.

Definition unpack2 (v : pyval) : res (pyval * pyval) :=
  match v with
  | PyTuple l | PyList l => unpack_items l
  | PyStr s => unpack_items (chars s)
  | _ => Err TypeError
  end.

(** [str(v)], as the [%s] conversion applies it. Nested strings are
    quoted without escapes. *)
Fixpoint py_str_gen (quote : bool) (v : pyval) {struct v} : string :=
  let fix commas (l : list pyval) {struct l} : string :=
    match l with
    | [] => ""
    | [x] => py_str_gen true x
    | x :: l' => py_str_gen true x +:+ ", " +:+ commas l'
    end in
  match v with
  | PyNone => "None"
  | PyBool b => if b then "True" else "False"
  | PyInt z => pretty z
  | PyStr s => if quote then "'" +:+ s +:+ "'" else s
  | PyTuple [x] => "(" +:+ py_str_gen true x +:+ ",)"
  | PyTuple l => "(" +:+ commas l +:+ ")"
  | PyList l => "[" +:+ commas l +:+ "]"
  | PyNode i => "<node " +:+ pretty i +:+ ">"
  | PyFunc f => "<function " +:+ f +:+ ">"
  end.

Definition py_str : pyval → string := py_str_gen false.

(** [os.path.join(a, *p)] of posixpath: an absolute component restarts
    the path; a component that is no string has no [startswith]. *)
Definition starts_with_slash (s : string) : bool :=
  match s with String "/"%char _ => true | _ => false end.

Fixpoint ends_with_slash (s : string) : bool :=
  match s with
  | EmptyString => false
  | String c EmptyString => Ascii.eqb c "/"%char
  | String _ s' => ends_with_slash s'
  end.

Definition join2 (a b : string) : string :=
  if starts_with_slash b then b
  else if String.eqb a "" || ends_with_slash a then a +:+ b
  else a +:+ "/" +:+ b.

Fixpoint os_path_join (path : pyval) (p : list pyval) : res pyval :=
  match p with
  | [] => Ok path
  | PyStr b :: p' =>
      if starts_with_slash b then os_path_join (PyStr b) p'
      else
        match path with
        | PyStr a => os_path_join (PyStr (join2 a b)) p'
        | _ => Err AttributeError
        end
  | _ :: _ => Err AttributeError
  end.

(** [needle in s] on strings. *)
Definition contains (needle s : string) : bool :=
  match String.index 0 needle s with Some _ => true | None => false end.

(** ** Dictionaries *)

Abbreviation dict := (gmap string pyval).

(** [d == e] on dictionaries: same number of items, and every key of
    [d] bound in [e] to an equal value. *)
Definition dict_eqb (d e : dict) : bool :=
  Nat.eqb (size d) (size e) &&
  forallb (λ kv, match e !! kv.1 with
                 | Some w => py_eqb kv.2 w
                 | None => false
                 end) (map_to_list d).

(** ** The workflow under assembly *)

(** A node object: its name, its interface and the inputs set on it
    ([node.inputs.x = v]). *)
Record node : Type := Node {
  node_name : string;
  interface : string;
  inputs : gmap string pyval
}.

(** One [workflow.connect(src, src_port, dst, dst_port)]. The source is
    whatever the pool entry unpacked to. *)
Record edge : Type := Edge {
  src : pyval;
  src_port : pyval;
  dst : nat;
  dst_port : string
}.

(** The objects one resolution pass shares. Builders receive the pool,
    the config and the workflow by reference and mutate them in place;
    [nodes] is the store of node objects created so far, a node's
    identity being its index. *)
Record state : Type := State {
  resource_pool : dict;
  config : dict;
  nodes : list node;
  workflow : list edge
}.

(** ** Builder bodies: state, exceptions and early return *)

Inductive outcome (A : Type) : Type :=
| Val (a : A) (st : state)
| Return (st : state)
| Raise (e : exn).
Arguments Val {A} a st.
Arguments Return {A} st.
Arguments Raise {A} e.

Definition M (A : Type) : Type := state → outcome A.

Definition ret {A} (a : A) : M A := λ st, Val a st.

Definition bind {A B} (m : M A) (k : A → M B) : M B :=
  λ st, match m st with
        | Val a st' => k a st'
        | Return st' => Return st'
        | Raise e => Raise e
        end.

Declare Scope py_scope.
Delimit Scope py_scope with py.
Notation "x <- m ;; k" := (bind m (λ x, k))
  (at level 20, m at level 99, k at level 200, only parsing) : py_scope.
Notation "' pat <- m ;; k" := (bind m (λ x, match x with pat => k end))
  (at level 20, pat pattern, m at level 99, k at level 200, only parsing) : py_scope.
Notation "m ;; k" := (bind m (λ _, k))
  (at level 100, k at level 200, only parsing, right associativity) : py_scope.
Local Open Scope py_scope.

(** [return workflow, resource_pool] *)
Definition return_ {A} : M A := λ st, Return st.

Definition raise {A} (e : exn) : M A := λ _, Raise e.

Definition lift {A} (r : res A) : M A :=
  λ st, match r with Ok a => Val a st | Err e => Raise e end.

(** [if c: body] *)
Definition when (c : bool) (body : M unit) : M unit :=
  if c then body else ret tt.

(** A builder takes the suffix [name] of its node names and the shared
    objects, and hands back [workflow, resource_pool]. *)
Definition builder : Type := string → state → res state.

Definition run_body (m : M unit) : state → res state :=
  λ st, match m st with
        | Val _ st' | Return st' => Ok st'
        | Raise e => Err e
        end.

(** [workflow, resource_pool = b(workflow, resource_pool, config, name)] *)
Definition call (b : builder) (name : string) : M unit :=
  λ st, match b name st with
        | Ok st' => Val tt st'
        | Err e => Raise e
        end.

(** *** The resource pool and the config *)

Definition get_pool : M dict := λ st, Val (resource_pool st) st.
Definition get_config : M dict := λ st, Val (config st) st.

(** [copy.copy(resource_pool)] *)
Definition copy_pool : M dict := get_pool.

Definition getitem (d : dict) (key : string) : res pyval :=
  match d !! key with
  | Some v => Ok v
  | None => Err (KeyError key)
  end.

(** [key in d.keys()] *)
Definition has_key (d : dict) (key : string) : bool :=
  bool_decide (is_Some (d !! key)).

(** [resource_pool[key]] *)
Definition pool_get (key : string) : M pyval :=
  λ st, lift (getitem (resource_pool st) key) st.

(** [resource_pool[key] = v] *)
Definition pool_set (key : string) (v : pyval) : M unit :=
  λ st, Val tt (State (<[key := v]> (resource_pool st)) (config st)
                      (nodes st) (workflow st)).

(** [config[key]] *)
Definition config_get (key : string) : M pyval :=
  λ st, lift (getitem (config st) key) st.

(** [config[key] = v] *)
Definition config_set (key : string) (v : pyval) : M unit :=
  λ st, Val tt (State (resource_pool st) (<[key := v]> (config st))
                      (nodes st) (workflow st)).

(** *** The graph engine

    Nipype is an external library. Creating a node allocates a node
    object; [connect] records the connection it is asked for, with the
    source as given. The checks that the engine itself makes on nodes
    and ports are outside the model. *)

(** [pe.Node(interface, name=name)] *)
Definition new_node (iface name : string) : M nat :=
  λ st, Val (length (nodes st))
            (State (resource_pool st) (config st)
                   (nodes st ++ [Node name iface ∅]) (workflow st)).

Definition with_input (port : string) (v : pyval) (n : node) : node :=
  Node (node_name n) (interface n) (<[port := v]> (inputs n)).

(** [n.inputs.port = v] *)
Definition set_input (n : nat) (port : string) (v : pyval) : M unit :=
  λ st, Val tt (State (resource_pool st) (config st)
                      (alter (with_input port v) n (nodes st)) (workflow st)).

(** [workflow.connect(src, src_port, dst, dst_port)] *)
Definition connect (s sp : pyval) (d : nat) (dp : string) : M unit :=
  λ st, Val tt (State (resource_pool st) (config st) (nodes st)
                      (workflow st ++ [Edge s sp d dp])).

(** *** Binding a pool entry to a node input *)

(** [[
    if isinstance(resource_pool[key], tuple):
        node, out_file = resource_pool[key]
        workflow.connect(node, out_file, dst, port)
    else:
        dst.inputs.port = resource_pool[key]
    ]] *)
Definition wire_tuple (key : string) (d : nat) (port : string) : M unit :=
  v <- pool_get key ;;
  if is_tuple v then
    '(node, out_file) <- lift (unpack2 v) ;;
    connect node out_file d port
  else
    set_input d port v.

(** [[
    if len(resource_pool[key]) == 2:
        node, out_file = resource_pool[key]
        workflow.connect(node, out_file, dst, port)
    else:
        dst.inputs.port = resource_pool[key]
    ]] *)
Definition wire_len (key : string) (d : nat) (port : string) : M unit :=
  v <- pool_get key ;;
  n <- lift (py_len v) ;;
  if Nat.eqb n 2 then
    '(node, out_file) <- lift (unpack2 v) ;;
    connect node out_file d port
  else
    set_input d port v.

(** *** Resolving a prerequisite

    [[
    if <missing>:
        old_rp = copy.copy(resource_pool)
        workflow, resource_pool = b(workflow, resource_pool, config, name)
        if resource_pool == old_rp:
            return workflow, resource_pool
    ]] *)
Definition prerequisite (missing : dict → bool) (b : builder) (name : string)
  : M unit :=
  rp <- get_pool ;;
  when (missing rp) (
    old_rp <- copy_pool ;;
    call b name ;;
    rp' <- get_pool ;;
    when (dict_eqb rp' old_rp) return_).

(** [for key in keys: body(key)] *)
Fixpoint for_each (keys : list string) (body : string → M unit) : M unit :=
  match keys with
  | [] => ret tt
  | key :: keys' => body key ;; for_each keys' body
  end.

(** [a.inputs.port = config[key]] *)
Definition set_from_config (n : nat) (port key : string) : M unit :=
  v <- config_get key ;;
  set_input n port v.

(** [[
    os.path.join(config['output_directory'], config["run_name"],
                 config["site_name"], config["subject_id"],
                 config["session_id"])
    ]] *)
Definition session_dir : M pyval :=
  output_directory <- config_get "output_directory" ;;
  run_name <- config_get "run_name" ;;
  site_name <- config_get "site_name" ;;
  subject_id <- config_get "subject_id" ;;
  session_id <- config_get "session_id" ;;
  lift (os_path_join output_directory [run_name; site_name; subject_id; session_id]).

(** [["%s<sep>%s<sep>%s" % (config["subject_id"], config["session_id"],
                            config["scan_id"])]] *)
Definition scan_label (sep : string) : M string :=
  subject_id <- config_get "subject_id" ;;
  session_id <- config_get "session_id" ;;
  scan_id <- config_get "scan_id" ;;
  ret (py_str subject_id +:+ sep +:+ py_str session_id +:+ sep +:+ py_str scan_id).

(** [[
    metadata = [config['session_id'], config['scan_id']]
    if 'site_name' in config.keys():
        metadata.append(config['site_name'])
    ]] *)
Definition report_metadata : M pyval :=
  session_id <- config_get "session_id" ;;
  scan_id <- config_get "scan_id" ;;
  cfg <- get_config ;;
  if has_key cfg "site_name" then
    site_name <- config_get "site_name" ;;
    ret (PyList [session_id; scan_id; site_name])
  else ret (PyList [session_id; scan_id]).

(** [config.get(key, default)] *)
Definition config_get_default (key : string) (default : pyval) : M pyval :=
  λ st, Val (match config st !! key with Some v => v | None => default end) st.

(** [(n, port)], the reference a builder publishes for an output. *)
Definition reference (n : nat) (port : string) : pyval :=
  PyTuple [PyNode n; PyStr port].

(** ** Code of other modules

    [anatomical_preproc], [functional_preproc] and [qap_utils] are
    imported by the builders; their functions are parameters of the
    development. A builder of those modules is taken to follow the
    contract of the builders of this file: it receives the workflow, the
    pool and the config by reference, updates them in place, and hands
    the same workflow and pool back. The two checks of [qap_utils] read
    the dictionary they are given and either raise or return. *)
Record externals : Type := Externals {
  afni_anatomical_linear_registration : builder;
  anatomical_reorient_workflow : builder;
  afni_segmentation_workflow : builder;
  invert_functional_brain_mask_workflow : builder;
  func_motion_correct_workflow : builder;
  mean_functional_workflow : builder;
  (** [check_config_settings(config, parameter)]: raises or passes. *)
  check_config_settings : dict → string → option exn;
  (** [check_input_resources(resource_pool, resource_name)] *)
  check_input_resources : dict → string → option exn
}.

Definition check (r : option exn) : M unit :=
  match r with Some e => raise e | None => ret tt end.

Definition absent (key : string) (rp : dict) : bool := negb (has_key rp key).

Section Builders.

Variable E : externals.

(** *** [qap_mask_workflow] *)

Definition qap_mask_wiring (name : string) : M unit :=
  clip_level <- new_node "ClipLevel" ("qap_headmask_clip_level" +:+ name) ;;
  create_expr_string <-
    new_node "Function(create_expr_string)"
             ("qap_headmask_create_expr_string" +:+ name) ;;
  connect (PyNode clip_level) (PyStr "clip_val")
          create_expr_string "clip_level_value" ;;
  mask_skull <- new_node "Calc" ("qap_headmask_mask_skull" +:+ name) ;;
  set_input mask_skull "outputtype" (PyStr "NIFTI_GZ") ;;
  connect (PyNode create_expr_string) (PyStr "expr_string") mask_skull "expr" ;;
  dilate_erode <- new_node "MaskTool" ("qap_headmask_mask_tool" +:+ name) ;;
  set_input dilate_erode "dilate_inputs" (PyStr "6 -6") ;;
  set_input dilate_erode "outputtype" (PyStr "NIFTI_GZ") ;;
  connect (PyNode mask_skull) (PyStr "out_file") dilate_erode "in_file" ;;
  fill <- new_node "Function(scipy_fill)" ("qap_headmask_scipy_fill" +:+ name) ;;
  connect (PyNode dilate_erode) (PyStr "out_file") fill "in_file" ;;
  slice_head_mask <-
    new_node "Function(slice_head_mask)"
             ("qap_headmask_slice_head_mask" +:+ name) ;;
  combine_masks <- new_node "Calc" ("qap_headmask_combine_masks" +:+ name) ;;
  set_input combine_masks "expr" (PyStr "(a+b)-(a*b)") ;;
  set_input combine_masks "outputtype" (PyStr "NIFTI_GZ") ;;
  subtract_mask <- new_node "Calc" ("qap_headmask_subtract_masks" +:+ name) ;;
  set_input subtract_mask "expr" (PyStr "a-b") ;;
  set_input subtract_mask "outputtype" (PyStr "NIFTI_GZ") ;;
  anat_reorient <- pool_get "anat_reorient" ;;
  (if is_tuple anat_reorient then
     '(node, out_file) <- lift (unpack2 anat_reorient) ;;
     connect node out_file clip_level "in_file" ;;
     connect node out_file mask_skull "in_file_a" ;;
     connect node out_file slice_head_mask "infile"
   else
     set_input clip_level "in_file" anat_reorient ;;
     set_input mask_skull "in_file_a" anat_reorient ;;
     set_input slice_head_mask "infile" anat_reorient) ;;
  wire_tuple "anat_linear_xfm" slice_head_mask "transform" ;;
  connect (PyNode fill) (PyStr "out_file") combine_masks "in_file_a" ;;
  connect (PyNode slice_head_mask) (PyStr "outfile_path")
          combine_masks "in_file_b" ;;
  connect (PyNode combine_masks) (PyStr "out_file") subtract_mask "in_file_a" ;;
  connect (PyNode slice_head_mask) (PyStr "outfile_path")
          subtract_mask "in_file_b" ;;
  pool_set "anat_qap_head_mask" (reference combine_masks "out_file") ;;
  pool_set "anat_whole_head_mask" (reference fill "out_file") ;;
  pool_set "anat_skull_only_mask" (reference subtract_mask "out_file").

Definition qap_mask_workflow : builder := λ name, run_body (
  prerequisite (absent "anat_linear_xfm")
               (afni_anatomical_linear_registration E) name ;;
  prerequisite (absent "anat_reorient")
               (anatomical_reorient_workflow E) name ;;
  qap_mask_wiring name).

(** *** [qap_gather_header_info] *)

Definition qap_gather_header_info (data_type : string) : builder :=
  λ name, run_body (
  gather_header <-
    new_node "Function(create_header_dict_entry)"
             ("gather_header_info_" +:+ data_type +:+ name) ;;
  set_from_config gather_header "subject" "subject_id" ;;
  set_from_config gather_header "session" "session_id" ;;
  set_from_config gather_header "scan" "scan_id" ;;
  rp <- get_pool ;;
  (if String.eqb data_type "anat" then
     when (has_key rp "anatomical_scan") (
       anatomical_scan <- pool_get "anatomical_scan" ;;
       set_input gather_header "in_file" anatomical_scan ;;
       set_input gather_header "type" (PyStr data_type))
   else if contains "func" data_type then
     when (has_key rp "functional_scan") (
       functional_scan <- pool_get "functional_scan" ;;
       set_input gather_header "in_file" functional_scan ;;
       set_input gather_header "type" (PyStr data_type))
   else ret tt) ;;
  out_dir <- session_dir ;;
  label <- scan_label "_" ;;
  out_json <- lift (os_path_join out_dir
                [PyStr (label +:+ "_qap-" +:+ data_type +:+ ".json")]) ;;
  header_to_json <-
    new_node "Function(write_json)"
             ("qap_header_to_json_" +:+ data_type +:+ name) ;;
  set_input header_to_json "json_file" out_json ;;
  connect (PyNode gather_header) (PyStr "qap_dict")
          header_to_json "output_dict" ;;
  pool_set (data_type +:+ "_header_info") out_json).

(** *** [calculate_artifacts_background]

    The second prerequisite binds the returned pool to
    [new_resource_pool]; [resource_pool] keeps naming the dictionary
    that the prerequisite builder received and filled. *)

Definition calculate_artifacts_wiring (name : string) : M unit :=
  calculate_artifacts <-
    new_node "Function(artifacts)" ("calculate_artifacts" +:+ name) ;;
  set_from_config calculate_artifacts "exclude_zeroes" "exclude_zeros" ;;
  wire_tuple "anat_reorient" calculate_artifacts "anatomical_reorient" ;;
  wire_tuple "anat_qap_head_mask" calculate_artifacts "qap_head_mask_path" ;;
  pool_set "anat_fav_artifacts_background"
           (reference calculate_artifacts "fav_bg_file") ;;
  pool_set "anat_qap_bg_head_mask"
           (reference calculate_artifacts "bg_mask_file").

Definition calculate_artifacts_background : builder := λ name, run_body (
  prerequisite (absent "anat_qap_head_mask") qap_mask_workflow name ;;
  prerequisite (absent "anat_reorient")
               (anatomical_reorient_workflow E) name ;;
  calculate_artifacts_wiring name).

(** *** [calculate_temporal_std] *)

Definition calculate_temporal_std : builder := λ name, run_body (
  calculate_tstd_map <-
    new_node "Function(get_temporal_std_map)"
             ("calculate_temporal_std" +:+ name) ;;
  wire_tuple "func_reorient" calculate_tstd_map "func_reorient" ;;
  wire_tuple "func_brain_mask" calculate_tstd_map "func_mask" ;;
  pool_set "func_temporal_std_map"
           (reference calculate_tstd_map "temporal_std_map_file")).

(** *** [calculate_sfs_workflow] *)

Definition calculate_sfs_wiring (name : string) : M unit :=
  calculate_sfs <-
    new_node "Function(sfs_timeseries)" ("calculate_sfs" +:+ name) ;;
  wire_tuple "func_reorient" calculate_sfs "func" ;;
  wire_tuple "func_brain_mask" calculate_sfs "func_mask" ;;
  wire_tuple "func_temporal_std_map" calculate_sfs "temporal_std_file" ;;
  pool_set "func_SFS" (reference calculate_sfs "sfs_file") ;;
  pool_set "func_estimated_nuisance"
           (reference calculate_sfs "est_nuisance_file") ;;
  pool_set "func_estimated_nuisance_csf"
           (reference calculate_sfs "est_nuisance_file_csf").

Definition calculate_sfs_workflow : builder := λ name, run_body (
  prerequisite (absent "func_temporal_std_map") calculate_temporal_std name ;;
  calculate_sfs_wiring name).

(** *** [qap_anatomical_spatial_workflow] *)

(** [[
    if 'site_name' in resource_pool.keys():
        spatial.inputs.site_name = resource_pool['site_name']
    elif 'site_name' in config.keys():
        spatial.inputs.site_name = config['site_name']
    ]] *)
Definition set_site_name (spatial : nat) : M unit :=
  rp <- get_pool ;;
  cfg <- get_config ;;
  if has_key rp "site_name" then
    site_name <- pool_get "site_name" ;;
    set_input spatial "site_name" site_name
  else if has_key cfg "site_name" then
    set_from_config spatial "site_name" "site_name"
  else ret tt.

Definition anatomical_report (name : string) : M unit :=
  plot <- new_node "PlotMosaic" ("plot_mosaic" +:+ name) ;;
  set_from_config plot "subject" "subject_id" ;;
  metadata <- report_metadata ;;
  set_input plot "metadata" metadata ;;
  set_input plot "title" (PyStr "Anatomical reoriented") ;;
  wire_len "anat_reorient" plot "in_file" ;;
  pool_set "mean_epi_mosaic" (reference plot "out_file") ;;
  pool_set "qap_mosaic" (reference plot "out_file").

Definition qap_anatomical_spatial_wiring (name : string) : M unit :=
  spatial <-
    new_node "Function(qap_anatomical_spatial)"
             ("qap_anatomical_spatial" +:+ name) ;;
  set_from_config spatial "subject_id" "subject_id" ;;
  set_from_config spatial "session_id" "session_id" ;;
  set_from_config spatial "scan_id" "scan_id" ;;
  set_from_config spatial "run_name" "run_name" ;;
  set_from_config spatial "exclude_zeroes" "exclude_zeros" ;;
  set_input spatial "out_vox" (PyBool true) ;;
  set_from_config spatial "session_output_dir" "output_directory" ;;
  starter <- pool_get "starter" ;;
  '(node, out_file) <- lift (unpack2 starter) ;;
  connect node out_file spatial "starter" ;;
  set_site_name spatial ;;
  wire_tuple "anat_reorient" spatial "anatomical_reorient" ;;
  wire_tuple "anat_qap_head_mask" spatial "qap_head_mask_path" ;;
  wire_tuple "anat_qap_bg_head_mask" spatial "qap_bg_head_mask_path" ;;
  wire_tuple "anat_whole_head_mask" spatial "whole_head_mask_path" ;;
  wire_tuple "anat_skull_only_mask" spatial "skull_mask_path" ;;
  wire_tuple "anat_gm_mask" spatial "anatomical_gm_mask" ;;
  wire_len "anat_wm_mask" spatial "anatomical_wm_mask" ;;
  wire_len "anat_csf_mask" spatial "anatomical_csf_mask" ;;
  wire_tuple "anat_fav_artifacts_background" spatial "fav_artifacts" ;;
  write_report <- config_get_default "write_report" (PyBool false) ;;
  when (py_truth write_report) (anatomical_report name) ;;
  out_dir <- session_dir ;;
  label <- scan_label "_" ;;
  out_json <- lift (os_path_join out_dir [PyStr (label +:+ "_qap-anat.json")]) ;;
  spatial_to_json <-
    new_node "Function(write_json)"
             ("qap_anatomical_spatial_to_json" +:+ name) ;;
  set_input spatial_to_json "json_file" out_json ;;
  connect (PyNode spatial) (PyStr "qap") spatial_to_json "output_dict" ;;
  pool_set "qap_anatomical_spatial" out_json.

(** [[
    if "exclude_zeros" not in config.keys():
        config["exclude_zeros"] = False
    ]] *)
Definition default_config (key : string) (v : pyval) : M unit :=
  cfg <- get_config ;;
  when (negb (has_key cfg key)) (config_set key v).

(** The segmentation prerequisite, too, binds the returned pool to
    [new_resource_pool]. *)
Definition qap_anatomical_spatial_workflow : builder := λ name, run_body (
  cfg <- get_config ;;
  check (check_config_settings E cfg "anatomical_template") ;;
  default_config "exclude_zeros" (PyBool false) ;;
  prerequisite (absent "anat_fav_artifacts_background")
               calculate_artifacts_background name ;;
  prerequisite (λ rp, absent "anat_gm_mask" rp || absent "anat_wm_mask" rp
                      || absent "anat_csf_mask" rp)
               (afni_segmentation_workflow E) name ;;
  qap_anatomical_spatial_wiring name).

(** *** [qap_functional_workflow] *)

Definition functional_report (name : string) : M unit :=
  plot <- new_node "PlotMosaic" ("plot_mosaic" +:+ name) ;;
  set_from_config plot "subject" "subject_id" ;;
  metadata <- report_metadata ;;
  set_input plot "metadata" metadata ;;
  set_input plot "title" (PyStr "Mean EPI") ;;
  wire_len "func_mean" plot "in_file" ;;
  pool_set "qap_mosaic" (reference plot "out_file").

(** [[
    if 'site_name' in config.keys():
        n.inputs.site_name = config['site_name']
    ]] *)
Definition set_config_site_name (n : nat) : M unit :=
  cfg <- get_config ;;
  when (has_key cfg "site_name") (set_from_config n "site_name" "site_name").

Definition grayplot_report (name : string) (out_dir : pyval)
    (fd temporal gs_ts : nat) : M unit :=
  _ <- report_metadata ;;
  label <- scan_label "_" ;;
  out_ts_measures <-
    lift (os_path_join out_dir [PyStr (label +:+ "_timeseries-measures.png")]) ;;
  label <- scan_label "_" ;;
  out_cluster <-
    lift (os_path_join out_dir [PyStr (label +:+ "_grayplot-cluster.nii.gz")]) ;;
  grayplot <- new_node "GrayPlot" ("grayplot" +:+ name) ;;
  set_from_config grayplot "subject" "subject_id" ;;
  set_input grayplot "out_file" out_ts_measures ;;
  set_input grayplot "out_cluster" out_cluster ;;
  id_string <- scan_label " " ;;
  set_input grayplot "metadata" (PyList [PyStr id_string]) ;;
  connect (PyNode fd) (PyStr "out_file") grayplot "meanfd_file" ;;
  dict_id <- scan_label " " ;;
  connect (PyNode temporal)
          (PyTuple [PyStr "qa"; PyFunc "pick_dvars"; PyStr dict_id])
          grayplot "dvars" ;;
  connect (PyNode gs_ts) (PyStr "output") grayplot "global_signal" ;;
  pool_set "timeseries_measures" (reference grayplot "out_file") ;;
  pool_set "grayplot-cluster" (reference grayplot "out_cluster") ;;
  wire_len "func_reorient" grayplot "func_file" ;;
  wire_len "func_brain_mask" grayplot "mask_file".

Definition qap_functional_wiring (name : string) : M unit :=
  fd <- new_node "Function(fd_jenkinson)" ("generate_FD_file" +:+ name) ;;
  rp <- get_pool ;;
  (if has_key rp "mcflirt_rel_rms" then
     mcflirt_rel_rms <- pool_get "mcflirt_rel_rms" ;;
     set_input fd "in_file" mcflirt_rel_rms
   else
     wire_len "func_coordinate_transformation" fd "in_file") ;;
  spatial_epi <-
    new_node "Function(qap_functional_spatial)"
             ("qap_functional_spatial" +:+ name) ;;
  default_config "ghost_direction" (PyStr "y") ;;
  set_from_config spatial_epi "direction" "ghost_direction" ;;
  set_from_config spatial_epi "subject_id" "subject_id" ;;
  set_from_config spatial_epi "session_id" "session_id" ;;
  set_from_config spatial_epi "scan_id" "scan_id" ;;
  set_from_config spatial_epi "run_name" "run_name" ;;
  set_config_site_name spatial_epi ;;
  wire_len "func_mean" spatial_epi "mean_epi" ;;
  wire_len "func_brain_mask" spatial_epi "func_brain_mask" ;;
  write_report <- config_get_default "write_report" (PyBool false) ;;
  when (py_truth write_report) (functional_report name) ;;
  temporal <-
    new_node "Function(qap_functional_temporal)"
             ("qap_functional_temporal" +:+ name) ;;
  set_from_config temporal "subject_id" "subject_id" ;;
  set_from_config temporal "session_id" "session_id" ;;
  set_from_config temporal "scan_id" "scan_id" ;;
  set_from_config temporal "run_name" "run_name" ;;
  set_from_config temporal "session_output_dir" "output_directory" ;;
  connect (PyNode fd) (PyStr "out_file") temporal "fd_file" ;;
  set_config_site_name temporal ;;
  gs_ts <-
    new_node "Function(global_signal_time_series)"
             ("global_signal_time_series" +:+ name) ;;
  func_reorient <- pool_get "func_reorient" ;;
  n <- lift (py_len func_reorient) ;;
  (if Nat.eqb n 2 then
     '(node, out_file) <- lift (unpack2 func_reorient) ;;
     connect node out_file temporal "func_timeseries" ;;
     connect node out_file gs_ts "functional_file"
   else
     rp <- get_pool ;;
     check (check_input_resources E rp "func_reorient") ;;
     input_file <- pool_get "func_reorient" ;;
     set_input temporal "func_timeseries" input_file ;;
     set_input gs_ts "functional_file" input_file) ;;
  func_mean <- pool_get "func_mean" ;;
  n <- lift (py_len func_mean) ;;
  (if Nat.eqb n 2 then
     '(node, out_file) <- lift (unpack2 func_mean) ;;
     connect node out_file temporal "func_mean"
   else
     rp <- get_pool ;;
     check (check_input_resources E rp "func_mean") ;;
     input_file <- pool_get "func_mean" ;;
     set_input temporal "func_mean" input_file) ;;
  wire_len "func_brain_mask" temporal "func_brain_mask" ;;
  wire_len "func_inverted_brain_mask" temporal "bg_func_brain_mask" ;;
  wire_tuple "func_SFS" temporal "sfs" ;;
  out_dir <- session_dir ;;
  label <- scan_label "_" ;;
  out_json <- lift (os_path_join out_dir [PyStr (label +:+ "_qap-func.json")]) ;;
  spatial_epi_to_json <-
    new_node "Function(write_json)"
             ("qap_functional_spatial_to_json" +:+ name) ;;
  set_input spatial_epi_to_json "json_file" out_json ;;
  temporal_to_json <-
    new_node "Function(write_json)"
             ("qap_functional_temporal_to_json" +:+ name) ;;
  set_input temporal_to_json "json_file" out_json ;;
  connect (PyNode spatial_epi) (PyStr "qap") spatial_epi_to_json "output_dict" ;;
  connect (PyNode temporal) (PyStr "qap") temporal_to_json "output_dict" ;;
  pool_set "qap_functional" out_json ;;
  _ <- scan_label " " ;;
  write_report <- config_get "write_report" ;;
  when (py_truth write_report) (grayplot_report name out_dir fd temporal gs_ts).

Definition qap_functional_workflow : builder := λ name, run_body (
  prerequisite (absent "func_inverted_brain_mask")
               (invert_functional_brain_mask_workflow E) name ;;
  prerequisite (λ rp, absent "func_motion_correct" rp
                      || (absent "func_coordinate_transformation" rp
                          && absent "mcflirt_rel_rms" rp))
               (func_motion_correct_workflow E) name ;;
  prerequisite (absent "func_mean") (mean_functional_workflow E) name ;;
  prerequisite (absent "func_SFS") calculate_sfs_workflow name ;;
  qap_functional_wiring name).

End Builders.

(** ** [run_nipype_workflow] *)

(** [resource_pool.keys()] *)
Definition keys (d : dict) : list string := (map_to_list d).*1.

(** The body of the sweep over the pool:
    [[
    ds = pe.Node(nio.DataSink(), name='datasink_%s' % key)
    ds.inputs.base_directory = os.path.join(base_dir, "output")
    if isinstance(resource_pool[key], tuple):
        node, out_file = resource_pool[key]
        wf.connect(node, out_file, ds, key)
    ]] *)
Definition datasink (base_dir key : string) : M unit :=
  ds <- new_node "DataSink" ("datasink_" +:+ key) ;;
  set_input ds "base_directory" (PyStr (join2 base_dir "output")) ;;
  v <- pool_get key ;;
  when (is_tuple v) (
    '(node, out_file) <- lift (unpack2 v) ;;
    connect node out_file ds key).

Definition materialize (base_dir : string) : M unit :=
  rp <- get_pool ;;
  for_each (keys rp) (datasink base_dir).

(** What [run_nipype_workflow] hands back: the output paths that
    [glob] finds under [pattern] after [wf.run] with [n_procs] workers,
    or the assembled workflow and its base directory. *)
Inductive run_output : Type :=
| Outputs (n_procs : pyval) (pattern : string)
| Assembled (base_dir : string).

Record run_report : Type := RunReport {
  final : state;
  caller_config : option dict;
  output : run_output
}.

(** [not config_dict] *)
Definition falsy_config (config_dict : option dict) : bool :=
  match config_dict with
  | None => true
  | Some d => Nat.eqb (size d) 0
  end.

(** [workflow] is the builder passed in, [func_name] its name, [cwd]
    the result of [os.getcwd()], [objects] the node objects that exist
    when the call is made. A falsy [config_dict] is replaced by a new
    dictionary, so that the caller's object is left alone; otherwise the
    caller's dictionary is the one the builder and the default of
    [num_processors] write to. *)
Definition run_nipype_workflow (workflow : builder) (func_name cwd : string)
    (rp : dict) (objects : list node) (config_dict : option dict)
    (run : bool) : res run_report :=
  let config_dict' :=
    if falsy_config config_dict then ∅ else default ∅ config_dict in
  let base_dir := join2 cwd func_name in
  let wf_base_dir := join2 base_dir "working_dir" in
  let body :=
    call workflow "_" ;;
    materialize base_dir ;;
    when run (default_config "num_processors" (PyInt 1)) in
  match run_body body (State rp config_dict' objects []) with
  | Ok st =>
      let caller :=
        if falsy_config config_dict then config_dict else Some (config st) in
      if run then
        match getitem (config st) "num_processors" with
        | Ok n_procs =>
            Ok (RunReport st caller
                  (Outputs n_procs (join2 (join2 base_dir "output") "*")))
        | Err e => Err e
        end
      else Ok (RunReport st caller (Assembled wf_base_dir))
  | Err e => Err e
  end.

(** ** [run_qap_mask_wf] and [run_qap_mask] *)

(** [os.path.join("test_data", "bids_data", "site-1_sub-1_ses-1", "anat",
    file)] *)
Definition test_data_file (file : string) : string :=
  join2 (join2 (join2 (join2 "test_data" "bids_data") "site-1_sub-1_ses-1")
               "anat") file.

(** [resource_filename] is [pkg_resources.resource_filename("qap", _)].
    An argument that is not given, or falsy, is replaced by the file of
    the test data; the pool is filled under the keys
    [anatomical_reorient] and [allineate_linear_xfm]. *)
Definition mask_wf_pool (resource_filename : string → string)
    (anatomical_reorient allineate_linear_xfm : pyval) : dict :=
  let anatomical_reorient :=
    if py_truth anatomical_reorient then anatomical_reorient
    else PyStr (resource_filename (test_data_file
           "site-1_sub-1_ses-1_run-1_anatomical-reorient.nii.gz")) in
  let allineate_linear_xfm :=
    if py_truth allineate_linear_xfm then allineate_linear_xfm
    else PyStr (resource_filename (test_data_file
           "site-1_sub-1_ses-1_run-1_allineate-linear-xfm.aff12.1D")) in
  <[ "allineate_linear_xfm" := allineate_linear_xfm ]>
    (<[ "anatomical_reorient" := anatomical_reorient ]> ∅).

(** The head mask builder is run on that pool through
    [run_nipype_workflow]; the paths it returns are printed. *)
Definition run_qap_mask_wf (E : externals) (resource_filename : string → string)
    (cwd : string) (objects : list node)
    (anatomical_reorient allineate_linear_xfm : pyval) : res run_report :=
  run_nipype_workflow (qap_mask_workflow E) "qap_mask_workflow" cwd
    (mask_wf_pool resource_filename anatomical_reorient allineate_linear_xfm)
    objects None true.

(** [run_qap_mask(anatomical_reorient, allineate_out_xfm, out_dir, run)]:
    a new workflow, a pool with the two files, the head mask builder, and
    one sink fed by the resources [qap_head_mask] and
    [skull_only_mask]. When [run] is set the result is the first path
    that [glob] finds under the pattern. *)
Definition run_qap_mask (E : externals) (cwd : string) (objects : list node)
    (anatomical_reorient allineate_out_xfm : pyval) (out_dir : option string)
    (run : bool) : res (state * run_output) :=
  let output := "qap_head_mask" in
  let out_dir :=
    match out_dir with
    | Some d => if String.eqb d "" then cwd else d
    | None => cwd
    end in
  let workflow_dir := join2 (join2 out_dir "workflow_output") output in
  let resource_pool : dict :=
    <[ "allineate_linear_xfm" := allineate_out_xfm ]>
      (<[ "anatomical_reorient" := anatomical_reorient ]> ∅) in
  let body :=
    call (qap_mask_workflow E) "_" ;;
    ds <- new_node "DataSink" ("datasink_" +:+ output) ;;
    set_input ds "base_directory" (PyStr workflow_dir) ;;
    head_mask <- pool_get output ;;
    '(node, out_file) <- lift (unpack2 head_mask) ;;
    connect node out_file ds output ;;
    skull_only_mask <- pool_get "skull_only_mask" ;;
    '(node, out_file) <- lift (unpack2 skull_only_mask) ;;
    connect node out_file ds "skull_only_mask" in
  match run_body body (State resource_pool ∅ objects []) with
  | Ok st =>
      Ok (st, if run
              then Outputs (PyInt 1) (join2 (join2 workflow_dir output) "*")
              else Assembled workflow_dir)
  | Err e => Err e
  end.

(** * Vocabulary of the properties *)

(** ** Relations between the state before a step and the state after it

    A relation is [Stable] when the primitive updates of a builder
    preserve it; [port_ok] tells on which input ports [n.inputs.port = v]
    does. [config[key] = v] is only ever run on a key that the config
    does not have. *)

Class Stable (R : relation state) (port_ok : string → Prop) : Prop := {
  stable_preorder :: PreOrder R;
  stable_pool_set key v st :
    R st (State (<[key := v]> (resource_pool st)) (config st)
                (nodes st) (workflow st));
  stable_default key v st :
    config st !! key = None →
    R st (State (resource_pool st) (<[key := v]> (config st))
                (nodes st) (workflow st));
  stable_new_node n st :
    R st (State (resource_pool st) (config st) (nodes st ++ [n]) (workflow st));
  stable_set_input n port v st :
    port_ok port →
    R st (State (resource_pool st) (config st)
                (alter (with_input port v) n (nodes st)) (workflow st));
  stable_connect e st :
    R st (State (resource_pool st) (config st) (nodes st) (workflow st ++ [e]))
}.

(** Every outcome of [m] that carries a state is related to the state
    [m] started from. *)
Definition preserves (R : relation state) {A} (m : M A) : Prop :=
  ∀ st, match m st with
        | Val _ st' | Return st' => R st st'
        | Raise _ => True
        end.

Definition builder_preserves (R : relation state) (b : builder) : Prop :=
  ∀ name st st', b name st = Ok st' → R st st'.

(** The builders of the other modules preserve [R]. *)
Definition externals_preserve (R : relation state) (E : externals) : Prop :=
  builder_preserves R (afni_anatomical_linear_registration E) ∧
  builder_preserves R (anatomical_reorient_workflow E) ∧
  builder_preserves R (afni_segmentation_workflow E) ∧
  builder_preserves R (invert_functional_brain_mask_workflow E) ∧
  builder_preserves R (func_motion_correct_workflow E) ∧
  builder_preserves R (mean_functional_workflow E).

(** No key of the pool is removed. *)
Definition keys_kept : relation state :=
  λ st st', dom (resource_pool st) ⊆ dom (resource_pool st').

(** Every key of the config keeps its value. *)
Definition config_kept : relation state :=
  λ st st', config st ⊆ config st'.

(** The input [direction] of the nodes that exist is left as it is. *)
Definition direction_kept : relation state :=
  λ st st', ∀ i n, nodes st !! i = Some n →
    ∃ n', nodes st' !! i = Some n'
        ∧ node_name n' = node_name n
        ∧ inputs n' !! "direction" = inputs n !! "direction".

(** [st'] is what some builder of the file returns when called on [st]. *)
Definition builder_call (E : externals) (name : string) (st st' : state)
  : Prop :=
  qap_mask_workflow E name st = Ok st' ∨
  (∃ data_type, qap_gather_header_info data_type name st = Ok st') ∨
  calculate_artifacts_background E name st = Ok st' ∨
  calculate_temporal_std name st = Ok st' ∨
  calculate_sfs_workflow name st = Ok st' ∨
  qap_anatomical_spatial_workflow E name st = Ok st' ∨
  qap_functional_workflow E name st = Ok st'.

(** ** The sinks of the sweep *)

(** The sink that the sweep creates for [key]. *)
Definition sink_node (base_dir key : string) : node :=
  Node ("datasink_" +:+ key) "DataSink"
       (<[ "base_directory" := PyStr (join2 base_dir "output") ]> ∅).

(** The edge into the sink [ds] of [key]: one for a pair, none for a
    value that is no tuple. *)
Definition sink_edge (rp : dict) (ds : nat) (key : string) : list edge :=
  match rp !! key with
  | Some (PyTuple [n; p]) => [Edge n p ds key]
  | _ => []
  end.

(** The edges of the sweep over [keys], the first sink being [ds]. *)
Fixpoint sink_edges (rp : dict) (ds : nat) (keys : list string) : list edge :=
  match keys with
  | [] => []
  | key :: keys' => sink_edge rp ds key ++ sink_edges rp (S ds) keys'
  end.

(** Every tuple of the pool is a pair. *)
Definition pairs_only (rp : dict) : Prop :=
  ∀ key v, rp !! key = Some v → is_tuple v = true → ∃ n p, v = PyTuple [n; p].

Definition pairs_onlyb (rp : dict) : bool :=
  forallb (λ kv : string * pyval,
             match kv.2 with
             | PyTuple [_; _] => true
             | PyTuple _ => false
             | _ => true
             end) (map_to_list rp).

(** ** What a node is given *)

(** The edges into port [port] of node [d], and the input set on it. *)
Definition edges_into (st : state) (d : nat) (port : string) : list edge :=
  filter (λ e, dst e = d ∧ dst_port e = port) (workflow st).

Definition input_of (st : state) (d : nat) (port : string) : option pyval :=
  n ← nodes st !! d; inputs n !! port.


(** ** Concrete passes *)

(** A pass in which no builder of the other modules finds its raw
    input: each of them hands the pool back as it received it; the
    checks of [qap_utils] pass. *)
Definition stalls : builder := λ _ st, Ok st.

Definition stalling_externals : externals :=
  Externals stalls stalls stalls stalls stalls stalls
            (λ _ _, None) (λ _ _, None).

(** The identifiers of a scan. *)
Definition scan_config : dict :=
  list_to_map [("subject_id", PyStr "sub-1"); ("session_id", PyStr "ses-1");
               ("scan_id", PyStr "anat_1"); ("run_name", PyStr "run");
               ("site_name", PyStr "site-1");
               ("output_directory", PyStr "/out")].

(** The scenario of the head mask: only the reoriented scan is given. *)
Definition mask_stalled : state :=
  State {[ "anat_reorient" := PyStr "/a.nii.gz" ]} ∅ [] [].

(** The same, with the registration transform supplied as well. *)
Definition mask_ready : state :=
  State (<[ "anat_linear_xfm" := PyStr "/a.aff12.1D" ]>
           {[ "anat_reorient" := PyStr "/a.nii.gz" ]}) ∅ [] [].

Definition state_of (r : res state) (otherwise : state) : state :=
  match r with Ok st => st | Err _ => otherwise end.

(** What the head mask builder returns on [mask_ready]. *)
Definition mask_done : state :=
  Eval vm_compute in
    state_of (qap_mask_workflow stalling_externals "_" mask_ready) mask_ready.

(** What the anatomical builder returns on [mask_stalled]. *)
Definition anat_stalled : state :=
  Eval vm_compute in
    state_of (qap_anatomical_spatial_workflow stalling_externals "_"
                mask_stalled) mask_stalled.

(** A functional scan whose prerequisites are in the pool, with no
    [ghost_direction] in the config. *)
Definition func_ready : state :=
  State (list_to_map
           [("func_reorient", PyStr "/func.nii.gz");
            ("func_brain_mask", PyStr "/func_mask.nii.gz");
            ("func_inverted_brain_mask", PyStr "/func_inv_mask.nii.gz");
            ("func_motion_correct", PyStr "/func_mc.nii.gz");
            ("func_coordinate_transformation", PyStr "/func.aff12.1D");
            ("func_mean", PyStr "/func_mean.nii.gz");
            ("func_SFS", PyStr "/func_sfs.nii.gz")])
        (<[ "write_report" := PyBool false ]> scan_config) [] [].

(** What the functional builder returns on [func_ready]. *)
Definition func_done : state :=
  Eval vm_compute in
    state_of (qap_functional_workflow stalling_externals "_" func_ready)
             func_ready.

(** An anatomical scan whose derived files are all in the pool, with the
    [starter] node of the pipeline. *)
Definition anat_pool (starter gm wm : pyval) : dict :=
  list_to_map
    [("starter", starter);
     ("anat_reorient", PyStr "/anat.nii.gz");
     ("anat_qap_head_mask", PyStr "/head_mask.nii.gz");
     ("anat_qap_bg_head_mask", PyStr "/bg_head_mask.nii.gz");
     ("anat_whole_head_mask", PyStr "/whole_head_mask.nii.gz");
     ("anat_skull_only_mask", PyStr "/skull_only_mask.nii.gz");
     ("anat_gm_mask", gm);
     ("anat_wm_mask", wm);
     ("anat_csf_mask", PyStr "/csf_mask.nii.gz");
     ("anat_fav_artifacts_background", PyStr "/fav_bg.nii.gz")].

Definition anat_state (starter gm wm : pyval) : state :=
  State (anat_pool starter gm wm) scan_config
        [Node "starter" "IdentityInterface" ∅] [].


(** The edges into [port] of the anatomical node and the input set on
    it, after the anatomical builder ran on [anat_state]; the node is the
    second object, after the starter node. *)
Definition spatial_binding (starter gm wm : pyval) (port : string)
  : res (list edge * option pyval) :=
  match qap_anatomical_spatial_workflow stalling_externals "_"
          (anat_state starter gm wm) with
  | Ok st => Ok (edges_into st 1 port, input_of st 1 port)
  | Err e => Err e
  end.

(** ** Guarded relations

    [Guarded R pool_ok cfg_ok port_ok]: the primitive updates preserve
    [R] when the pool key, the config key or the input port they write
    satisfies its guard. *)
Class Guarded (R : relation state)
    (pool_ok cfg_ok port_ok : string → Prop) : Prop := {
  guarded_preorder :: PreOrder R;
  guarded_pool_set key v st :
    pool_ok key →
    R st (State (<[key := v]> (resource_pool st)) (config st)
                (nodes st) (workflow st));
  guarded_default key v st :
    cfg_ok key →
    config st !! key = None →
    R st (State (resource_pool st) (<[key := v]> (config st))
                (nodes st) (workflow st));
  guarded_new_node n st :
    R st (State (resource_pool st) (config st) (nodes st ++ [n]) (workflow st));
  guarded_set_input n port v st :
    port_ok port →
    R st (State (resource_pool st) (config st)
                (alter (with_input port v) n (nodes st)) (workflow st));
  guarded_connect e st :
    R st (State (resource_pool st) (config st) (nodes st) (workflow st ++ [e]))
}.

(** [m] does not run to its end from a state without [P]. *)
Definition needs {A} (P : state → Prop) (m : M A) : Prop :=
  ∀ st, ¬ P st → ∀ a st', m st ≠ Val a st'.

(** [m] has no early return. *)
Definition straight {A} (m : M A) : Prop :=
  ∀ st st', m st ≠ Return st'.

(** What fails to hold before the step fails to hold after it. *)
Definition unless (P : state → Prop) : relation state :=
  λ st st', ¬ P st → ¬ P st'.

Definition in_config (key : string) (st : state) : Prop :=
  is_Some (config st !! key).

Definition in_pool (key : string) (st : state) : Prop :=
  is_Some (resource_pool st !! key).

(** The binding of [key] in the pool, respectively in the config, is
    left as it is. *)
Definition pool_key_kept (key : string) : relation state :=
  λ st st', resource_pool st' !! key = resource_pool st !! key.

Definition config_key_kept (key : string) : relation state :=
  λ st st', config st' !! key = config st !! key.

(** The resources that the builders bind. *)
Definition mask_outputs : list string :=
  ["anat_qap_head_mask"; "anat_whole_head_mask"; "anat_skull_only_mask"].

Definition artifacts_outputs : list string :=
  mask_outputs ++ ["anat_fav_artifacts_background"; "anat_qap_bg_head_mask"].

Definition anatomical_outputs : list string :=
  artifacts_outputs ++ ["mean_epi_mosaic"; "qap_mosaic"; "qap_anatomical_spatial"].

Definition sfs_outputs : list string :=
  ["func_temporal_std_map"; "func_SFS"; "func_estimated_nuisance";
   "func_estimated_nuisance_csf"].

Definition functional_outputs : list string :=
  sfs_outputs ++ ["qap_mosaic"; "qap_functional"; "timeseries_measures";
                  "grayplot-cluster"].

(** An anatomical scan ready for the anatomical builder, and what the
    builder returns on it. *)
Definition anat_ready : state :=
  anat_state (reference 0 "starter") (PyStr "/gm_mask.nii.gz")
             (PyStr "/wm_mask.nii.gz").

Definition anat_done : state :=
  Eval vm_compute in
    state_of (qap_anatomical_spatial_workflow stalling_externals "_" anat_ready)
             anat_ready.

(** The workflow keeps its edges, and every node its place, its name,
    its interface and the inputs that were set on it. *)
Definition graph_kept : relation state :=
  λ st st',
    workflow st `prefix_of` workflow st'
    ∧ ∀ i n, nodes st !! i = Some n →
        ∃ n', nodes st' !! i = Some n'
            ∧ node_name n' = node_name n
            ∧ interface n' = interface n
            ∧ dom (inputs n) ⊆ dom (inputs n').


(** The pool is left as it is. *)
Definition pool_kept : relation state :=
  λ st st', resource_pool st' = resource_pool st.

(** The input [port] of the nodes that exist is left as it is. *)
Definition input_kept (port : string) : relation state :=
  λ st st', ∀ i n, nodes st !! i = Some n →
    ∃ n', nodes st' !! i = Some n' ∧ inputs n' !! port = inputs n !! port.

(** A raw anatomical scan with the identifiers of the scan. *)
Definition header_ready : state :=
  State {[ "anatomical_scan" := PyStr "/raw.nii.gz" ]} scan_config [] [].

(** ** The dispatch rule

    The rule in the words of the spec: a builder that misses a
    prerequisite takes a snapshot of the pool and invokes the builder of
    the prerequisite on the current workflow, pool and config; when the
    pool that comes back equals the snapshot, it returns at once what
    that builder returned; otherwise, and when nothing is missing, it
    goes on with [continue]. *)
Definition dispatch (missing : dict → bool) (b : builder) (name : string)
    (continue : state → res state) : state → res state :=
  λ st,
    if missing (resource_pool st) then
      match b name st with
      | Ok st' =>
          if dict_eqb (resource_pool st') (resource_pool st) then Ok st'
          else continue st'
      | Err e => Err e
      end
    else continue st.



(** The compound tests of the segmentation and of the motion
    correction. *)
Definition segmentation_missing (rp : dict) : bool :=
  absent "anat_gm_mask" rp || absent "anat_wm_mask" rp
  || absent "anat_csf_mask" rp.






(** The state in which [qap_anatomical_spatial_workflow] starts to
    resolve its prerequisites: [exclude_zeros] has its default. *)
Definition with_exclude_zeros (st : state) : state :=
  State (resource_pool st)
        (if has_key (config st) "exclude_zeros" then config st
         else <[ "exclude_zeros" := PyBool false ]> (config st))
        (nodes st) (workflow st).



(** A pass in which the segmentation builder reports that it is
    called. *)
Definition segmentation_raises : externals :=
  Externals stalls stalls (λ _ _, Err (Failure "afni_segmentation_workflow"))
            stalls stalls stalls (λ _ _, None) (λ _ _, None).

(** The anatomical scan of [anat_state] without its white matter
    mask. *)
Definition anat_state_without_wm : state :=
  State (delete "anat_wm_mask"
           (anat_pool (reference 0 "starter") (PyStr "/gm_mask.nii.gz")
                      (PyStr "/wm_mask.nii.gz")))
        scan_config [Node "starter" "IdentityInterface" ∅] [].

(** The head mask is to be built, and a whole head mask is given. *)
Definition whole_head_mask_given : state :=
  State (<[ "anat_whole_head_mask" := PyStr "/mine.nii.gz" ]>
           (resource_pool mask_ready))
        {[ "exclude_zeros" := PyBool false ]} [] [].

(** * Properties *)

(** ** Python values, on examples *)

Example unpack2_pair :
  unpack2 (reference 3 "out_file") = Ok (PyNode 3, PyStr "out_file").
Proof. reflexivity. Qed.

Example unpack2_path : unpack2 (PyStr "/a.nii.gz") = Err ValueError.
Proof. reflexivity. Qed.

Example unpack2_two_characters :
  unpack2 (PyStr "ab") = Ok (PyStr "a", PyStr "b").
Proof. reflexivity. Qed.

Example unpack2_number : unpack2 (PyInt 1) = Err TypeError.
Proof. reflexivity. Qed.

Example py_len_number : py_len (PyInt 1) = Err TypeError.
Proof. reflexivity. Qed.

Example py_eqb_true_one : py_eqb (PyBool true) (PyInt 1) = true.
Proof. reflexivity. Qed.

Example dict_eqb_extended :
  dict_eqb (resource_pool mask_ready) (resource_pool mask_stalled) = false.
Proof. vm_compute. reflexivity. Qed.

Example os_path_join_session :
  os_path_join (PyStr "/out") [PyStr "run"; PyStr "site-1"; PyStr "sub-1"]
  = Ok (PyStr "/out/run/site-1/sub-1").
Proof. reflexivity. Qed.

Example os_path_join_absolute :
  os_path_join (PyStr "/out") [PyStr "/elsewhere"; PyStr "x"]
  = Ok (PyStr "/elsewhere/x").
Proof. reflexivity. Qed.

Example contains_func : contains "func" "func_1" = true.
Proof. reflexivity. Qed.

(** ** The monad *)

Lemma bind_val {A B} (m : M A) (k : A → M B) st a st' :
  m st = Val a st' → bind m k st = k a st'.
Proof. unfold bind. by intros ->. Qed.

Lemma bind_return {A B} (m : M A) (k : A → M B) st st' :
  m st = Return st' → bind m k st = Return st'.
Proof. unfold bind. by intros ->. Qed.

Lemma bind_raise {A B} (m : M A) (k : A → M B) st e :
  m st = Raise e → bind m k st = Raise e.
Proof. unfold bind. by intros ->. Qed.

Lemma bind_val_inv {A B} (m : M A) (k : A → M B) st b st2 :
  bind m k st = Val b st2 → ∃ a st1, m st = Val a st1 ∧ k a st1 = Val b st2.
Proof. unfold bind. destruct (m st); [eauto | done | done]. Qed.

Lemma has_key_true (d : dict) key : has_key d key = true ↔ is_Some (d !! key).
Proof. unfold has_key. apply bool_decide_eq_true. Qed.

Lemma has_key_false (d : dict) key : has_key d key = false ↔ d !! key = None.
Proof.
  unfold has_key. rewrite bool_decide_eq_false. symmetry. apply eq_None_not_Some.
Qed.

Lemma absent_false (d : dict) key : absent key d = false ↔ is_Some (d !! key).
Proof.
  unfold absent. rewrite negb_false_iff. apply has_key_true.
Qed.

Lemma absent_true (d : dict) key : absent key d = true ↔ d !! key = None.
Proof.
  unfold absent. rewrite negb_true_iff. apply has_key_false.
Qed.

(** ** Resolving a prerequisite *)

Lemma prerequisite_bound missing b name st :
  missing (resource_pool st) = false → prerequisite missing b name st = Val tt st.
Proof. unfold prerequisite, bind, get_pool. by intros ->. Qed.

Lemma prerequisite_stalls missing b name st st' :
  missing (resource_pool st) = true →
  b name st = Ok st' →
  dict_eqb (resource_pool st') (resource_pool st) = true →
  prerequisite missing b name st = Return st'.
Proof.
  intros Hm Hb He.
  unfold prerequisite, bind, get_pool, copy_pool, call, when, return_, ret.
  rewrite Hm; cbn. rewrite Hb; cbn. by rewrite He.
Qed.

Lemma prerequisite_progress missing b name st st' :
  missing (resource_pool st) = true →
  b name st = Ok st' →
  dict_eqb (resource_pool st') (resource_pool st) = false →
  prerequisite missing b name st = Val tt st'.
Proof.
  intros Hm Hb He.
  unfold prerequisite, bind, get_pool, copy_pool, call, when, return_, ret.
  rewrite Hm; cbn. rewrite Hb; cbn. by rewrite He.
Qed.

Lemma prerequisite_raises missing b name st e :
  missing (resource_pool st) = true →
  b name st = Err e →
  prerequisite missing b name st = Raise e.
Proof.
  intros Hm Hb.
  unfold prerequisite, bind, get_pool, copy_pool, call, when, return_, ret.
  rewrite Hm; cbn. by rewrite Hb.
Qed.

(** ** Steps that preserve a stable relation *)

Section Preservation.

Context {R : relation state} {port_ok : string → Prop}.
Context `{!Stable R port_ok}.

Lemma preserves_ret {A} (a : A) : preserves R (ret a).
Proof. intros st. simpl. reflexivity. Qed.

Lemma preserves_bind {A B} (m : M A) (k : A → M B) :
  preserves R m → (∀ a, preserves R (k a)) → preserves R (bind m k).
Proof.
  intros Hm Hk st. unfold bind. specialize (Hm st).
  destruct (m st) as [a st1| |]; [|done..].
  specialize (Hk a st1). destruct (k a st1); [|..|done]; by etrans.
Qed.

Lemma preserves_return {A} : preserves R (@return_ A).
Proof. intros st. simpl. reflexivity. Qed.

Lemma preserves_raise {A} e : preserves R (@raise A e).
Proof. by intros st. Qed.

Lemma preserves_lift {A} (r : res A) : preserves R (lift r).
Proof. intros st. destruct r; simpl; [reflexivity | done]. Qed.

Lemma preserves_check r : preserves R (check r).
Proof. destruct r; [apply preserves_raise | apply preserves_ret]. Qed.

Lemma preserves_when c m : preserves R m → preserves R (when c m).
Proof. destruct c; [done | intros _; apply preserves_ret]. Qed.

Lemma preserves_if {A} (c : bool) (m1 m2 : M A) :
  preserves R m1 → preserves R m2 → preserves R (if c then m1 else m2).
Proof. by destruct c. Qed.

Lemma preserves_get_pool : preserves R get_pool.
Proof. intros st. simpl. reflexivity. Qed.

Lemma preserves_copy_pool : preserves R copy_pool.
Proof. apply preserves_get_pool. Qed.

Lemma preserves_get_config : preserves R get_config.
Proof. intros st. simpl. reflexivity. Qed.

Lemma preserves_pool_get key : preserves R (pool_get key).
Proof. intros st. unfold pool_get. apply preserves_lift. Qed.

Lemma preserves_config_get key : preserves R (config_get key).
Proof. intros st. unfold config_get. apply preserves_lift. Qed.

Lemma preserves_config_get_default key d :
  preserves R (config_get_default key d).
Proof. intros st. simpl. reflexivity. Qed.

Lemma preserves_pool_set key v : preserves R (pool_set key v).
Proof. intros st. apply stable_pool_set. Qed.

Lemma preserves_new_node iface name : preserves R (new_node iface name).
Proof. intros st. apply stable_new_node. Qed.

Lemma preserves_set_input n port v :
  port_ok port → preserves R (set_input n port v).
Proof. intros Hp st. by apply stable_set_input. Qed.

Lemma preserves_connect s sp d dp : preserves R (connect s sp d dp).
Proof. intros st. apply stable_connect. Qed.

Lemma preserves_default_config key v : preserves R (default_config key v).
Proof.
  intros st. unfold default_config, bind, get_config, when.
  destruct (has_key (config st) key) eqn:Hk; simpl; [reflexivity|].
  apply stable_default. by apply has_key_false.
Qed.

Lemma preserves_call b name :
  builder_preserves R b → preserves R (call b name).
Proof.
  intros Hb st. unfold call. specialize (Hb name st).
  destruct (b name st); [by apply Hb | done].
Qed.

Lemma preserves_for_each keys body :
  (∀ key, preserves R (body key)) → preserves R (for_each keys body).
Proof.
  intros Hb. induction keys as [|key keys' IH]; simpl.
  - apply preserves_ret.
  - apply preserves_bind; [apply Hb | intros _; apply IH].
Qed.

Lemma run_body_preserves m :
  preserves R m → ∀ st st', run_body m st = Ok st' → R st st'.
Proof.
  intros Hm st st'. unfold run_body. specialize (Hm st).
  destruct (m st); intros [= <-]; done.
Qed.

Lemma preserves_prerequisite missing b name :
  builder_preserves R b → preserves R (prerequisite missing b name).
Proof.
  intros Hb. unfold prerequisite.
  apply preserves_bind; [apply preserves_get_pool | intros rp].
  apply preserves_when.
  apply preserves_bind; [apply preserves_copy_pool | intros old_rp].
  apply preserves_bind; [by apply preserves_call | intros _].
  apply preserves_bind; [apply preserves_get_pool | intros rp'].
  apply preserves_when, preserves_return.
Qed.

End Preservation.

Ltac head_of t :=
  lazymatch t with
  | ?f _ => head_of f
  | _ => t
  end.

(** Decomposes a goal [preserves R m] along the structure of [m]; the
    side conditions on ports are left to [tac]. *)
Ltac preserve_step tac :=
  lazymatch goal with
  | |- preserves _ (bind _ _) => apply preserves_bind; [| intros ?]
  | |- preserves _ (ret _) => apply preserves_ret
  | |- preserves _ return_ => apply preserves_return
  | |- preserves _ (raise _) => apply preserves_raise
  | |- preserves _ (lift _) => apply preserves_lift
  | |- preserves _ (check _) => apply preserves_check
  | |- preserves _ get_pool => apply preserves_get_pool
  | |- preserves _ copy_pool => apply preserves_copy_pool
  | |- preserves _ get_config => apply preserves_get_config
  | |- preserves _ (pool_get _) => apply preserves_pool_get
  | |- preserves _ (config_get _) => apply preserves_config_get
  | |- preserves _ (config_get_default _ _) =>
      apply preserves_config_get_default
  | |- preserves _ (pool_set _ _) => apply preserves_pool_set
  | |- preserves _ (new_node _ _) => apply preserves_new_node
  | |- preserves _ (connect _ _ _ _) => apply preserves_connect
  | |- preserves _ (default_config _ _) => apply preserves_default_config
  | |- preserves _ (set_input _ _ _) => apply preserves_set_input; tac
  | |- preserves _ (prerequisite _ _ _) =>
      apply preserves_prerequisite; assumption
  | |- preserves _ (call _ _) => apply preserves_call; assumption
  | |- preserves _ (when _ _) => apply preserves_when
  | |- preserves _ (for_each _ _) => apply preserves_for_each; intros ?
  | |- preserves _ (match ?x with _ => _ end) => destruct x
  | |- preserves _ ?m => let h := head_of m in unfold h
  end.

Ltac preserve_with tac := repeat preserve_step tac.

Ltac preserve := preserve_with ltac:(exact I).

(** Every builder of the file preserves a stable relation that the
    builders of the other modules preserve. *)
Section AllBuilders.

Context {R : relation state} `{!Stable R (λ _, True)}.
Variable E : externals.
Hypothesis HE : externals_preserve R E.

Lemma qap_mask_workflow_preserves : builder_preserves R (qap_mask_workflow E).
Proof.
  destruct HE as (? & ? & ? & ? & ? & ?).
  intros name. apply run_body_preserves. unfold qap_mask_wiring. preserve.
Qed.

Lemma qap_gather_header_info_preserves data_type :
  builder_preserves R (qap_gather_header_info data_type).
Proof. intros name. apply run_body_preserves. preserve. Qed.

Lemma calculate_artifacts_background_preserves :
  builder_preserves R (calculate_artifacts_background E).
Proof.
  pose proof qap_mask_workflow_preserves.
  destruct HE as (? & ? & ? & ? & ? & ?).
  intros name. apply run_body_preserves.
  unfold calculate_artifacts_wiring. preserve.
Qed.

Lemma calculate_temporal_std_preserves :
  builder_preserves R calculate_temporal_std.
Proof. intros name. apply run_body_preserves. preserve. Qed.

Lemma calculate_sfs_workflow_preserves :
  builder_preserves R calculate_sfs_workflow.
Proof.
  pose proof calculate_temporal_std_preserves.
  intros name. apply run_body_preserves. unfold calculate_sfs_wiring. preserve.
Qed.

Lemma qap_anatomical_spatial_workflow_preserves :
  builder_preserves R (qap_anatomical_spatial_workflow E).
Proof.
  pose proof calculate_artifacts_background_preserves.
  destruct HE as (? & ? & ? & ? & ? & ?).
  intros name. apply run_body_preserves.
  unfold qap_anatomical_spatial_wiring, anatomical_report. preserve.
Qed.

Lemma qap_functional_workflow_preserves :
  builder_preserves R (qap_functional_workflow E).
Proof.
  pose proof calculate_sfs_workflow_preserves.
  destruct HE as (? & ? & ? & ? & ? & ?).
  intros name. apply run_body_preserves.
  unfold qap_functional_wiring, functional_report, grayplot_report. preserve.
Qed.

Lemma materialize_preserves base_dir : preserves R (materialize base_dir).
Proof. unfold materialize, datasink. preserve. Qed.

End AllBuilders.

Lemma stalling_externals_preserve R `{!Reflexive R} :
  externals_preserve R stalling_externals.
Proof. repeat split; intros name st st' [= <-]; reflexivity. Qed.

(** ** The keys of the pool only grow *)

#[local] Instance keys_kept_stable : Stable keys_kept (λ _, True).
Proof.
  split; unfold keys_kept; simpl; try done.
  - split; [by intros st | intros st1 st2 st3 H1 H2; by etrans].
  - intros key v st. rewrite dom_insert_L. set_solver.
Qed.

Lemma builder_call_preserves {R : relation state} `{!Stable R (λ _, True)}
    E name st st' :
  externals_preserve R E → builder_call E name st st' → R st st'.
Proof.
  intros HE [H|[[dt H]|[H|[H|[H|[H|H]]]]]]; revert H.
  - by apply qap_mask_workflow_preserves.
  - by apply qap_gather_header_info_preserves.
  - by apply calculate_artifacts_background_preserves.
  - by apply calculate_temporal_std_preserves.
  - by apply calculate_sfs_workflow_preserves.
  - by apply qap_anatomical_spatial_workflow_preserves.
  - by apply qap_functional_workflow_preserves.
Qed.

(** C6: for every builder call, the keys of the pool after the call
    include the keys of the pool before it, provided that the builders of
    the other modules remove no key either. *)
Theorem pool_keys_grow E name st st' :
  externals_preserve keys_kept E →
  builder_call E name st st' →
  dom (resource_pool st) ⊆ dom (resource_pool st').
Proof. apply (builder_call_preserves (R := keys_kept)). Qed.

Lemma pool_keys_grow_witness :
  dom (resource_pool mask_ready) ⊆ dom (resource_pool mask_done).
Proof.
  apply (pool_keys_grow stalling_externals "_" mask_ready mask_done).
  - apply stalling_externals_preserve. by intros st.
  - left. vm_compute. reflexivity.
Defined.

(** ** The config during a pass *)

#[local] Instance config_kept_stable : Stable config_kept (λ _, True).
Proof.
  split; unfold config_kept; simpl; try done.
  - split; [by intros st | intros st1 st2 st3 H1 H2; by etrans].
  - intros key v st Hk. by apply insert_subseteq.
Qed.

(** The config that the builder returns differs from the config it
    received: [qap_anatomical_spatial_workflow] writes [exclude_zeros],
    [qap_functional_workflow] writes [ghost_direction]. *)
Lemma config_is_mutated :
  (qap_anatomical_spatial_workflow stalling_externals "_" mask_stalled
     = Ok anat_stalled
   ∧ config mask_stalled !! "exclude_zeros" = None
   ∧ config anat_stalled !! "exclude_zeros" = Some (PyBool false))
  ∧ (qap_functional_workflow stalling_externals "_" func_ready = Ok func_done
     ∧ config func_ready !! "ghost_direction" = None
     ∧ config func_done !! "ghost_direction" = Some (PyStr "y")).
Proof. repeat split; vm_compute; reflexivity. Qed.

Lemma run_nipype_workflow_config R `{!Stable R (λ _, True)}
    (b : builder) func_name cwd rp objects d run r :
  builder_preserves R b →
  run_nipype_workflow b func_name cwd rp objects (Some d) run = Ok r →
  falsy_config (Some d) = false →
  R (State rp d objects []) (final r) ∧ caller_config r = Some (config (final r)).
Proof.
  intros Hb. unfold run_nipype_workflow. intros Hr Hf. rewrite Hf in Hr.
  simpl in Hr.
  match type of Hr with
  | match run_body ?m ?st with _ => _ end = _ =>
      assert (Hm : preserves R m);
      [| pose proof (run_body_preserves m Hm st) as Hrun;
         destruct (run_body m st) as [st'|]; [|done] ]
  end.
  { pose proof (materialize_preserves (R := R)). preserve. }
  specialize (Hrun st' eq_refl).
  destruct run.
  - destruct (getitem (config st') "num_processors"); [|done].
    by injection Hr as <-.
  - by injection Hr as <-.
Qed.

Lemma run_nipype_workflow_fresh_config
    (b : builder) func_name cwd rp objects config_dict run r :
  run_nipype_workflow b func_name cwd rp objects config_dict run = Ok r →
  falsy_config config_dict = true →
  caller_config r = config_dict.
Proof.
  unfold run_nipype_workflow. intros Hr Hf. rewrite Hf in Hr.
  destruct (run_body _ _) as [st'|]; [|done].
  destruct run.
  - destruct (getitem (config st') "num_processors"); [|done].
    by injection Hr as <-.
  - by injection Hr as <-.
Qed.

(** C7, as the code has it: a builder call removes and rewrites no key
    of the config, provided that the builders of the other modules do
    not; keys that were absent may be bound after the call. The same
    holds of [run_nipype_workflow] for the dictionary of its caller,
    which is left alone when it is empty. *)
Theorem config_keys_kept E :
  externals_preserve config_kept E →
  (∀ name st st', builder_call E name st st' → config st ⊆ config st')
  ∧ (∀ (b : builder) func_name cwd rp objects d run r,
       (∀ name st st', b name st = Ok st' → builder_call E name st st') →
       run_nipype_workflow b func_name cwd rp objects (Some d) run = Ok r →
       ∃ d', caller_config r = Some d' ∧ d ⊆ d').
Proof.
  intros HE.
  assert (Hcall : ∀ name st st',
             builder_call E name st st' → config st ⊆ config st').
  { intros name st st'.
    by apply (builder_call_preserves (R := config_kept) E name). }
  split; [done|].
  intros b func_name cwd rp objects d run r Hb Hr.
  destruct (falsy_config (Some d)) eqn:Hf.
  - apply run_nipype_workflow_fresh_config in Hr as ->; [|done]. by exists d.
  - eapply (run_nipype_workflow_config config_kept) in Hr as [Hk ->]; [| |done].
    + eexists; split; [done | apply Hk].
    + intros name st st' Hst. eapply Hcall, Hb, Hst.
Qed.

Lemma config_keys_kept_witness : config func_ready ⊆ config func_done.
Proof.
  apply (proj1 (config_keys_kept stalling_externals
                  (stalling_externals_preserve config_kept)) "_").
  do 6 right. vm_compute. reflexivity.
Defined.

(** ** Stalls *)

Lemma run_body_stall missing b name (rest : M unit) st st' :
  missing (resource_pool st) = true →
  b name st = Ok st' →
  dict_eqb (resource_pool st') (resource_pool st) = true →
  run_body (prerequisite missing b name ;; rest) st = Ok st'.
Proof.
  intros Hm Hb He. unfold run_body.
  by rewrite (bind_return _ _ _ _ (prerequisite_stalls _ _ _ _ _ Hm Hb He)).
Qed.

Lemma run_body_bound missing b name (rest : M unit) st :
  missing (resource_pool st) = false →
  run_body (prerequisite missing b name ;; rest) st = run_body rest st.
Proof.
  intros Hm. unfold run_body.
  by rewrite (bind_val _ _ _ _ _ (prerequisite_bound _ b name _ Hm)).
Qed.

(** ** The head mask scenario *)

(** Evaluates a builder body on a state given by its four fields. *)
Ltac eval_body :=
  lazy beta iota zeta delta
    [run_body bind ret lift when new_node set_input connect pool_set pool_get
     config_get config_set get_pool get_config getitem set_from_config
     wire_tuple wire_len resource_pool config nodes workflow].





(** ** The sweep over the assembled pool *)

Lemma datasink_run base_dir key rp cfg objs wf v :
  rp !! key = Some v →
  (is_tuple v = true → ∃ n p, v = PyTuple [n; p]) →
  datasink base_dir key (State rp cfg objs wf)
  = Val tt (State rp cfg (objs ++ [sink_node base_dir key])
                  (wf ++ sink_edge rp (length objs) key)).
Proof.
  intros Hv Hshape. unfold datasink, sink_edge, sink_node.
  eval_body. rewrite Hv. eval_body.
  replace (alter _ _ _) with
    (objs ++ [Node ("datasink_" +:+ key) "DataSink"
                (<[ "base_directory" := PyStr (join2 base_dir "output") ]> ∅)])%list.
  2:{ rewrite <- (Nat.add_0_r (length objs)) at 1.
      by rewrite alter_app_r. }
  destruct (is_tuple v) eqn:Ht.
  - destruct Hshape as (n & p & ->); [done|]. reflexivity.
  - destruct v as [| | | |items| | |]; try discriminate Ht;
      cbn; by rewrite app_nil_r.
Qed.

Lemma for_each_datasink base_dir keys rp cfg objs wf :
  pairs_only rp →
  (∀ key, key ∈ keys → is_Some (rp !! key)) →
  for_each keys (datasink base_dir) (State rp cfg objs wf)
  = Val tt (State rp cfg (objs ++ (sink_node base_dir <$> keys))
                  (wf ++ sink_edges rp (length objs) keys)).
Proof.
  intros Hpairs. revert objs wf.
  induction keys as [|key keys' IH]; intros objs wf Hkeys.
  - simpl. by rewrite !app_nil_r.
  - destruct (Hkeys key) as [v Hv]; [left|].
    cbn [for_each]. erewrite bind_val; last first.
    { apply (datasink_run _ _ _ _ _ _ v); [exact Hv | exact (Hpairs key v Hv)]. }
    rewrite IH; [|intros k Hk; apply Hkeys; by right].
    rewrite length_app. cbn [length sink_edges fmap list_fmap].
    rewrite Nat.add_1_r, <- !app_assoc. reflexivity.
Qed.

Lemma sink_edge_elem rp ds key e :
  e ∈ sink_edge rp ds key →
  dst e = ds ∧ dst_port e = key
  ∧ rp !! key = Some (PyTuple [src e; src_port e]).
Proof.
  unfold sink_edge.
  destruct (rp !! key) as [[| | | |[|n [|p [|]]]| | |]|];
    try (intros He; by apply elem_of_nil in He).
  intros He. apply list_elem_of_singleton in He as ->. done.
Qed.

Lemma sink_edges_elem rp ds keys e :
  e ∈ sink_edges rp ds keys →
  ds ≤ dst e
  ∧ dst_port e ∈ keys
  ∧ rp !! dst_port e = Some (PyTuple [src e; src_port e]).
Proof.
  revert ds. induction keys as [|key keys' IH]; intros ds He; simpl in He.
  - by apply elem_of_nil in He.
  - apply elem_of_app in He as [He|He].
    + apply sink_edge_elem in He as (-> & <- & Hv).
      split; [done|]. split; [left | done].
    + destruct (IH _ He) as (Hle & Hin & Hv).
      split; [lia|]. split; [by right | done].
Qed.

Lemma sink_edge_filter rp ds key :
  filter (λ e, dst e = ds) (sink_edge rp ds key) = sink_edge rp ds key.
Proof.
  unfold sink_edge.
  destruct (rp !! key) as [[| | | |[|n [|p [|]]]| | |]|]; try done.
  by rewrite filter_cons_True.
Qed.

Lemma sink_edge_filter_ne rp ds ds' key :
  ds ≠ ds' → filter (λ e, dst e = ds') (sink_edge rp ds key) = [].
Proof.
  intros Hne. unfold sink_edge.
  destruct (rp !! key) as [[| | | |[|n [|p [|]]]| | |]|]; try done.
  by rewrite filter_cons_False.
Qed.

Lemma sink_edges_before rp ds ds' keys :
  ds' < ds → filter (λ e, dst e = ds') (sink_edges rp ds keys) = [].
Proof.
  revert ds. induction keys as [|key keys' IH]; intros ds Hlt; [done|].
  cbn [sink_edges]. rewrite filter_app, sink_edge_filter_ne by lia.
  apply IH. lia.
Qed.

Lemma sink_edges_at rp ds keys i key :
  keys !! i = Some key →
  filter (λ e, dst e = ds + i) (sink_edges rp ds keys)
  = sink_edge rp (ds + i) key.
Proof.
  revert ds i. induction keys as [|k keys' IH]; intros ds i Hi; [done|].
  cbn [sink_edges]. rewrite filter_app. destruct i as [|i].
  - injection Hi as ->. rewrite Nat.add_0_r.
    by rewrite sink_edge_filter, sink_edges_before, app_nil_r by lia.
  - rewrite sink_edge_filter_ne by lia.
    rewrite <- Nat.add_succ_comm. by apply IH.
Qed.

Lemma sink_edges_node base_dir rp objs keys e :
  e ∈ sink_edges rp (length objs) keys →
  (objs ++ (sink_node base_dir <$> keys)) !! dst e
  = Some (sink_node base_dir (dst_port e)).
Proof.
  revert objs. induction keys as [|k ks IH]; intros objs He.
  - by apply elem_of_nil in He.
  - cbn [sink_edges] in He. apply elem_of_app in He as [He|He].
    + apply sink_edge_elem in He as (-> & <- & _).
      by rewrite lookup_app_r, Nat.sub_diag.
    + specialize (IH (objs ++ [sink_node base_dir k])).
      rewrite length_app in IH. simpl in IH. rewrite Nat.add_1_r in IH.
      specialize (IH He). by rewrite <- app_assoc in IH.
Qed.

Lemma sink_node_inj base_dir key key' :
  sink_node base_dir key = sink_node base_dir key' → key = key'.
Proof. unfold sink_node. intros [= H]. exact H. Qed.

(** C4: the sweep over a pool whose tuples are pairs returns and leaves
    the pool as it is. For every key it creates one node named
    [datasink_<key>]. When the key is bound to a pair [(n, p)], the
    sweep adds exactly one edge into that node, from port [p] of [n];
    when the key is bound to a concrete value, it adds no edge into it,
    so that this node stays outside the workflow. The sweep adds no
    other edge. *)
Theorem sinks_follow_references (base_dir : string) (st : state) :
  pairs_only (resource_pool st) →
  ∃ st' sinks,
    materialize base_dir st = Val tt st'
    ∧ resource_pool st' = resource_pool st
    ∧ workflow st' = workflow st ++ sinks
    ∧ (∀ key v, resource_pool st !! key = Some v →
        ∃ ds, length (nodes st) ≤ ds
          ∧ nodes st' !! ds = Some (sink_node base_dir key)
          ∧ (∀ ds', length (nodes st) ≤ ds' →
                    nodes st' !! ds' = Some (sink_node base_dir key) →
                    ds' = ds)
          ∧ filter (λ e, dst e = ds) sinks
            = match v with
              | PyTuple [n; p] => [Edge n p ds key]
              | _ => []
              end)
    ∧ (∀ e, e ∈ sinks →
         resource_pool st !! dst_port e = Some (PyTuple [src e; src_port e])
         ∧ length (nodes st) ≤ dst e
         ∧ nodes st' !! dst e = Some (sink_node base_dir (dst_port e))).
Proof.
  intros Hpairs. destruct st as [rp cfg objs wf]. simpl in *.
  exists (State rp cfg (objs ++ (sink_node base_dir <$> keys rp))
                (wf ++ sink_edges rp (length objs) (keys rp))).
  exists (sink_edges rp (length objs) (keys rp)).
  assert (Hkeys : ∀ key, key ∈ keys rp ↔ is_Some (rp !! key)).
  { intros key. unfold keys. rewrite list_elem_of_fmap. split.
    - intros [[k v] [-> Hkv]]. apply elem_of_map_to_list in Hkv. by exists v.
    - intros [v Hv]. exists (key, v). split; [done|].
      by apply elem_of_map_to_list. }
  assert (Hnd : NoDup (keys rp)) by apply NoDup_fst_map_to_list.
  assert (Hsink : ∀ i key, keys rp !! i = Some key →
            (objs ++ (sink_node base_dir <$> keys rp)) !! (length objs + i)
            = Some (sink_node base_dir key)).
  { intros i key Hi.
    rewrite lookup_app_r, Nat.add_comm, Nat.add_sub by lia.
    by rewrite list_lookup_fmap, Hi. }
  split; [|split; [done|split; [done|split]]].
  - unfold materialize. erewrite bind_val; [|reflexivity].
    apply for_each_datasink; [done|]. intros key. apply Hkeys.
  - intros key v Hv. cbn [nodes].
    assert (Hin : key ∈ keys rp) by (apply Hkeys; by exists v).
    apply list_elem_of_lookup in Hin as [i Hi].
    exists (length objs + i). split; [lia|]. split; [by apply Hsink|]. split.
    + intros ds' Hle Hds'.
      rewrite lookup_app_r in Hds' by done.
      rewrite list_lookup_fmap in Hds'.
      destruct (keys rp !! (ds' - length objs)) as [key'|] eqn:Hi';
        [|done].
      assert (key' = key) as ->
        by (apply (sink_node_inj base_dir); simpl in Hds'; congruence).
      pose proof (NoDup_lookup _ _ _ _ Hnd Hi Hi'). lia.
    + rewrite (sink_edges_at _ _ _ _ key) by done.
      unfold sink_edge. rewrite Hv.
      by destruct v as [| | | |items| | |].
  - intros e He. cbn [nodes].
    pose proof (sink_edges_elem _ _ _ _ He) as (Hle & Hin & Hv).
    split; [done|]. split; [done|]. by apply (sink_edges_node _ rp).
Qed.

Lemma pairs_onlyb_sound rp : pairs_onlyb rp = true → pairs_only rp.
Proof.
  unfold pairs_onlyb. rewrite forallb_forall. intros Hall key v Hv Ht.
  specialize (Hall (key, v)). simpl in Hall.
  destruct v as [| | | |[|n [|p [|]]]| | |]; try discriminate Ht.
  - discriminate Hall. apply list_elem_of_In. by apply elem_of_map_to_list.
  - discriminate Hall. apply list_elem_of_In. by apply elem_of_map_to_list.
  - by exists n, p.
  - discriminate Hall. apply list_elem_of_In. by apply elem_of_map_to_list.
Qed.

Lemma sinks_follow_references_witness :
  ∃ st' sinks,
    materialize "/work/qap_mask_workflow" mask_done = Val tt st'
    ∧ workflow st' = workflow mask_done ++ sinks
    ∧ ∃ ds, filter (λ e, dst e = ds) sinks
            = [Edge (PyNode 6) (PyStr "out_file") ds "anat_qap_head_mask"].
Proof.
  destruct (sinks_follow_references "/work/qap_mask_workflow" mask_done)
    as (st' & sinks & Hrun & _ & Hwf & Hkey & _).
  { apply pairs_onlyb_sound. vm_compute. reflexivity. }
  exists st', sinks. split; [exact Hrun|]. split; [exact Hwf|].
  destruct (Hkey "anat_qap_head_mask" (reference 6 "out_file"))
    as (ds & _ & _ & _ & Hf).
  { vm_compute. reflexivity. }
  exists ds. exact Hf.
Defined.

(** ** The ghosting direction *)

#[local] Instance direction_kept_stable :
  Stable direction_kept (λ port, port ≠ "direction").
Proof.
  split; unfold direction_kept; simpl.
  - split.
    + intros st i n Hn. by exists n.
    + intros st1 st2 st3 H12 H23 i n Hn.
      destruct (H12 i n Hn) as (n2 & Hn2 & Hname2 & Hd2).
      destruct (H23 i n2 Hn2) as (n3 & Hn3 & Hname3 & Hd3).
      exists n3. split; [done|]. split; congruence.
  - intros key v st i n Hn. by exists n.
  - intros key v st _ i n Hn. by exists n.
  - intros n0 st i n Hn. exists n. split; [|done].
    by apply lookup_app_l_Some.
  - intros j port v st Hport i n Hn.
    destruct (decide (j = i)) as [->|Hne].
    + exists (with_input port v n). rewrite list_lookup_alter_eq, Hn.
      split; [done|]. split; [done|]. simpl. by rewrite lookup_insert_ne.
    + exists n. by rewrite list_lookup_alter_ne.
  - intros e st i n Hn. by exists n.
Qed.

Lemma wire_len_frame key d port st u st' :
  wire_len key d port st = Val u st' →
  config st' = config st ∧ length (nodes st') = length (nodes st).
Proof.
  unfold wire_len, bind, pool_get, lift, getitem, connect, set_input.
  destruct (resource_pool st !! key) as [v|]; [|done].
  destruct (py_len v) as [n|]; [|done].
  destruct (Nat.eqb n 2).
  - destruct (unpack2 v) as [[a b]|]; [|done]. by intros [= _ <-].
  - intros [= _ <-]. simpl. by rewrite length_alter.
Qed.

Lemma qap_functional_wiring_direction (E : externals) (name : string)
    (st st' : state) :
  qap_functional_wiring E name st = Val tt st' →
  ∃ n, nodes st' !! S (length (nodes st)) = Some n
     ∧ node_name n = "qap_functional_spatial" +:+ name
     ∧ inputs n !! "direction"
       = Some (default (PyStr "y") (config st !! "ghost_direction")).
Proof.
  unfold qap_functional_wiring. intros H.
  apply bind_val_inv in H as (fd & st1 & [= <- <-] & H).
  apply bind_val_inv in H as (rp & st2 & [= <- <-] & H).
  apply bind_val_inv in H as (u & st2 & Hfd & H).
  assert (Hframe : config st2 = config st
                   ∧ length (nodes st2) = S (length (nodes st))).
  { destruct (has_key _ _).
    - apply bind_val_inv in Hfd as (v & st3 & Hv & Hfd).
      unfold pool_get, lift in Hv. destruct (getitem _ _); [|done].
      injection Hv as <- <-. unfold set_input in Hfd.
      injection Hfd as _ <-. simpl.
      rewrite length_alter, length_app. simpl. split; [done | lia].
    - apply wire_len_frame in Hfd as [-> ->]. simpl.
      rewrite length_app. simpl. split; [done | lia]. }
  destruct Hframe as [Hcfg Hlen].
  apply bind_val_inv in H as (spatial_epi & st3 & [= <- <-] & H).
  apply bind_val_inv in H as (u1 & st4 & Hdef & H).
  apply bind_val_inv in H as (u2 & st5 & Hset & H).
  match type of H with
  | ?m _ = _ =>
      assert (Hrest : preserves direction_kept m)
  end.
  { unfold functional_report, grayplot_report, set_config_site_name.
    cbv beta.
    preserve_with ltac:(done). }
  specialize (Hrest st5). rewrite H in Hrest.
  rewrite <- Hlen.
  assert (Hnode : ∃ n, nodes st5 !! length (nodes st2) = Some n
     ∧ node_name n = "qap_functional_spatial" +:+ name
     ∧ inputs n !! "direction"
       = Some (default (PyStr "y") (config st !! "ghost_direction"))).
  { rewrite <- Hcfg. clear H Hrest Hfd Hcfg Hlen.
    unfold default_config, bind, get_config, when, config_set, ret in Hdef.
    unfold set_from_config, bind, config_get, lift, getitem, set_input in Hset.
    simpl in Hdef.
    destruct (has_key (config st2) "ghost_direction") eqn:Hk;
      injection Hdef as _ <-; simpl in Hset.
    - apply has_key_true in Hk as [v Hv]. rewrite Hv in Hset |- *.
      injection Hset as _ <-. simpl.
      eexists. rewrite list_lookup_alter_eq, lookup_app_r, Nat.sub_diag by done.
      simpl. split; [done|]. split; [done|].  unfold with_input; simpl. by rewrite lookup_insert_eq.
    - apply has_key_false in Hk. rewrite Hk.
      rewrite lookup_insert_eq in Hset. injection Hset as _ <-. simpl.
      eexists. rewrite list_lookup_alter_eq, lookup_app_r, Nat.sub_diag by done.
      simpl. split; [done|]. split; [done|].
      unfold with_input; simpl. by rewrite lookup_insert_eq. }
  destruct Hnode as (n & Hn & Hname & Hdir).
  destruct (Hrest _ _ Hn) as (n' & Hn' & Hname' & Hdir').
  exists n'. split; [done|]. split; congruence.
Qed.

(** C9: the part of [qap_functional_workflow] that follows the
    prerequisites creates the functional-spatial node as its second node;
    when it completes, the input [direction] of that node is the
    [ghost_direction] of the config it was given, and ["y"] when the
    config had none. With the prerequisites in the pool, the builder is
    that part. *)
Theorem ghost_direction_default (E : externals) (name : string) (st : state) :
  (∀ st', qap_functional_wiring E name st = Val tt st' →
     ∃ n, nodes st' !! S (length (nodes st)) = Some n
        ∧ node_name n = "qap_functional_spatial" +:+ name
        ∧ inputs n !! "direction"
          = Some (match config st !! "ghost_direction" with
                  | Some direction => direction
                  | None => PyStr "y"
                  end))
  ∧ (is_Some (resource_pool st !! "func_inverted_brain_mask") →
     is_Some (resource_pool st !! "func_motion_correct") →
     is_Some (resource_pool st !! "func_coordinate_transformation")
       ∨ is_Some (resource_pool st !! "mcflirt_rel_rms") →
     is_Some (resource_pool st !! "func_mean") →
     is_Some (resource_pool st !! "func_SFS") →
     qap_functional_workflow E name st
     = run_body (qap_functional_wiring E name) st).
Proof.
  split.
  - intros st' Hrun.
    destruct (qap_functional_wiring_direction E name st st' Hrun)
      as (n & Hn & Hname & Hdir).
    exists n. split; [done|]. split; [done|]. rewrite Hdir.
    by destruct (config st !! "ghost_direction").
  - intros Hinv Hmc Hxfm Hmean Hsfs. unfold qap_functional_workflow.
    apply absent_false in Hinv, Hmc, Hmean, Hsfs.
    rewrite run_body_bound; [|done].
    rewrite run_body_bound.
    2:{ rewrite Hmc. simpl. destruct Hxfm as [H|H]; apply absent_false in H;
        rewrite H; [done | by rewrite andb_false_r]. }
    rewrite run_body_bound; [|done].
    rewrite run_body_bound; [done|done].
Qed.

Lemma ghost_direction_default_witness :
  ∃ n, nodes func_done !! 1 = Some n
     ∧ node_name n = "qap_functional_spatial_"
     ∧ inputs n !! "direction" = Some (PyStr "y").
Proof.
  apply (proj1 (ghost_direction_default stalling_externals "_" func_ready)).
  vm_compute. reflexivity.
Defined.

(** ** Binding a pool entry to an input *)

Lemma wire_tuple_reference key d port st n p :
  resource_pool st !! key = Some (PyTuple [n; p]) →
  wire_tuple key d port st = connect n p d port st.
Proof.
  intros Hv. unfold wire_tuple, bind, pool_get, lift, getitem. by rewrite Hv.
Qed.

Lemma wire_tuple_concrete key d port st v :
  resource_pool st !! key = Some v → is_tuple v = false →
  wire_tuple key d port st = set_input d port v st.
Proof.
  intros Hv Ht. unfold wire_tuple, bind, pool_get, lift, getitem.
  by rewrite Hv, Ht.
Qed.

Lemma wire_tuple_misshaped key d port st items :
  resource_pool st !! key = Some (PyTuple items) → length items ≠ 2 →
  wire_tuple key d port st = Raise ValueError.
Proof.
  intros Hv Hlen. unfold wire_tuple, bind, pool_get, lift, getitem.
  rewrite Hv. by destruct items as [|a [|b [|c items]]].
Qed.

Lemma wire_len_reference key d port st n p :
  resource_pool st !! key = Some (PyTuple [n; p]) →
  wire_len key d port st = connect n p d port st.
Proof.
  intros Hv. unfold wire_len, bind, pool_get, lift, getitem. by rewrite Hv.
Qed.

(** The test on the length takes every value of another length for a
    concrete one, a tuple of the wrong arity included. *)
Lemma wire_len_other key d port st v n :
  resource_pool st !! key = Some v → py_len v = Ok n → n ≠ 2 →
  wire_len key d port st = set_input d port v st.
Proof.
  intros Hv Hn Hne. unfold wire_len, bind, pool_get, lift, getitem.
  rewrite Hv, Hn. by apply Nat.eqb_neq in Hne as ->.
Qed.

(** ... and every value of length two for a reference, a string of two
    characters included. *)
Lemma wire_len_two_characters key d port st (a b : ascii) :
  resource_pool st !! key = Some (PyStr (String a (String b EmptyString))) →
  wire_len key d port st
  = connect (PyStr (String a EmptyString)) (PyStr (String b EmptyString))
            d port st.
Proof.
  intros Hv. unfold wire_len, bind, pool_get, lift, getitem. by rewrite Hv.
Qed.

Lemma wire_len_unsized key d port st v :
  resource_pool st !! key = Some v → py_len v = Err TypeError →
  wire_len key d port st = Raise TypeError.
Proof.
  intros Hv Hn. unfold wire_len, bind, pool_get, lift, getitem.
  by rewrite Hv, Hn.
Qed.

(** C2, at a failing input: the white matter mask is the file [wm] of the
    working directory, a concrete value. The grey matter mask given the
    same way is set as the input of the node; the white matter mask,
    whose binding tests the length, is unpacked into its two characters
    and connected, and no input is set. *)
Theorem two_character_path_is_wired :
  let starter := reference 0 "starter" in
  spatial_binding starter (PyStr "gm") (PyStr "wm") "anatomical_gm_mask"
  = Ok ([], Some (PyStr "gm"))
  ∧ spatial_binding starter (PyStr "gm") (PyStr "wm") "anatomical_wm_mask"
    = Ok ([Edge (PyStr "w") (PyStr "m") 1 "anatomical_wm_mask"], None)
  ∧ spatial_binding starter (PyStr "gm") (PyInt 1) "anatomical_wm_mask"
    = Err TypeError.
Proof. repeat split; vm_compute; reflexivity. Qed.

(** C8, at a failing input: a triple in place of a [(node, port)] pair.
    As the grey matter mask, whose binding tests the type, it raises
    [ValueError]; as the white matter mask, whose binding tests the
    length, it is set as the input of the node and the call returns. *)
Theorem triple_is_bound_as_input :
  let starter := reference 0 "starter" in
  let triple := PyTuple [PyNode 0; PyStr "out_file"; PyStr "extra"] in
  spatial_binding starter triple (PyStr "/wm_mask.nii.gz") "anatomical_gm_mask"
  = Err ValueError
  ∧ spatial_binding starter (PyStr "/gm_mask.nii.gz") triple "anatomical_wm_mask"
    = Ok ([], Some triple).
Proof. repeat split; vm_compute; reflexivity. Qed.

(** ** The [starter] resource *)


Lemma default_config_run key v rp cfg objs wf :
  default_config key v (State rp cfg objs wf)
  = Val tt (State rp (if has_key cfg key then cfg else <[key := v]> cfg)
                  objs wf).
Proof.
  unfold default_config, bind, get_config, when, config_set, ret. simpl.
  by destruct (has_key cfg key).
Qed.


(** * Further properties of the builders *)

(** ** Steps that preserve a guarded relation *)

Section Guard.

Context {R : relation state} {pool_ok cfg_ok port_ok : string → Prop}.
Context `{!Guarded R pool_ok cfg_ok port_ok}.

Lemma guard_ret {A} (a : A) : preserves R (ret a).
Proof. intros st. simpl. reflexivity. Qed.

Lemma guard_bind {A B} (m : M A) (k : A → M B) :
  preserves R m → (∀ a, preserves R (k a)) → preserves R (bind m k).
Proof.
  intros Hm Hk st. unfold bind. specialize (Hm st).
  destruct (m st) as [a st1| |]; [|done..].
  specialize (Hk a st1). destruct (k a st1); [|..|done]; by etrans.
Qed.

Lemma guard_return {A} : preserves R (@return_ A).
Proof. intros st. simpl. reflexivity. Qed.

Lemma guard_raise {A} e : preserves R (@raise A e).
Proof. by intros st. Qed.

Lemma guard_lift {A} (r : res A) : preserves R (lift r).
Proof. intros st. destruct r; simpl; [reflexivity | done]. Qed.

Lemma guard_check r : preserves R (check r).
Proof. destruct r; [apply guard_raise | apply guard_ret]. Qed.

Lemma guard_when c m : preserves R m → preserves R (when c m).
Proof. destruct c; [done | intros _; apply guard_ret]. Qed.

Lemma guard_get_pool : preserves R get_pool.
Proof. intros st. simpl. reflexivity. Qed.

Lemma guard_get_config : preserves R get_config.
Proof. intros st. simpl. reflexivity. Qed.

Lemma guard_pool_get key : preserves R (pool_get key).
Proof. intros st. unfold pool_get. apply guard_lift. Qed.

Lemma guard_config_get key : preserves R (config_get key).
Proof. intros st. unfold config_get. apply guard_lift. Qed.

Lemma guard_config_get_default key d : preserves R (config_get_default key d).
Proof. intros st. simpl. reflexivity. Qed.

Lemma guard_pool_set key v : pool_ok key → preserves R (pool_set key v).
Proof. intros Hk st. by apply guarded_pool_set. Qed.

Lemma guard_new_node iface name : preserves R (new_node iface name).
Proof. intros st. apply guarded_new_node. Qed.

Lemma guard_set_input n port v :
  port_ok port → preserves R (set_input n port v).
Proof. intros Hp st. by apply guarded_set_input. Qed.

Lemma guard_connect s sp d dp : preserves R (connect s sp d dp).
Proof. intros st. apply guarded_connect. Qed.

Lemma guard_default_config key v :
  cfg_ok key → preserves R (default_config key v).
Proof.
  intros Hc st. unfold default_config, bind, get_config, when.
  destruct (has_key (config st) key) eqn:Hk; simpl; [reflexivity|].
  apply guarded_default; [done | by apply has_key_false].
Qed.

Lemma guard_call b name : builder_preserves R b → preserves R (call b name).
Proof.
  intros Hb st. unfold call. specialize (Hb name st).
  destruct (b name st); [by apply Hb | done].
Qed.

Lemma guard_for_each keys body :
  (∀ key, preserves R (body key)) → preserves R (for_each keys body).
Proof.
  intros Hb. induction keys as [|key keys' IH]; simpl.
  - apply guard_ret.
  - apply guard_bind; [apply Hb | intros _; apply IH].
Qed.

Lemma guard_run_body m :
  preserves R m → ∀ st st', run_body m st = Ok st' → R st st'.
Proof.
  intros Hm st st'. unfold run_body. specialize (Hm st).
  destruct (m st); intros [= <-]; done.
Qed.

Lemma guard_prerequisite missing b name :
  builder_preserves R b → preserves R (prerequisite missing b name).
Proof.
  intros Hb. unfold prerequisite.
  apply guard_bind; [apply guard_get_pool | intros rp].
  apply guard_when.
  apply guard_bind; [apply guard_get_pool | intros old_rp].
  apply guard_bind; [by apply guard_call | intros _].
  apply guard_bind; [apply guard_get_pool | intros rp'].
  apply guard_when, guard_return.
Qed.

End Guard.

Ltac side_condition :=
  first [ exact I | done | discriminate | reflexivity
        | by (vm_compute; tauto) | set_solver ].

Ltac guard_step :=
  lazymatch goal with
  | |- preserves _ (bind _ _) => apply guard_bind; [| intros ?]
  | |- preserves _ (ret _) => apply guard_ret
  | |- preserves _ return_ => apply guard_return
  | |- preserves _ (raise _) => apply guard_raise
  | |- preserves _ (lift _) => apply guard_lift
  | |- preserves _ (check _) => apply guard_check
  | |- preserves _ get_pool => apply guard_get_pool
  | |- preserves _ copy_pool => apply guard_get_pool
  | |- preserves _ get_config => apply guard_get_config
  | |- preserves _ (pool_get _) => apply guard_pool_get
  | |- preserves _ (config_get _) => apply guard_config_get
  | |- preserves _ (config_get_default _ _) => apply guard_config_get_default
  | |- preserves _ (pool_set _ _) => apply guard_pool_set; side_condition
  | |- preserves _ (new_node _ _) => apply guard_new_node
  | |- preserves _ (connect _ _ _ _) => apply guard_connect
  | |- preserves _ (default_config _ _) =>
      apply guard_default_config; side_condition
  | |- preserves _ (set_input _ _ _) => apply guard_set_input; side_condition
  | |- preserves _ (prerequisite _ _ _) =>
      apply guard_prerequisite; assumption
  | |- preserves _ (call _ _) => apply guard_call; assumption
  | |- preserves _ (when _ _) => apply guard_when
  | |- preserves _ (for_each _ _) => apply guard_for_each; intros ?
  | |- preserves _ (match ?x with _ => _ end) => destruct x
  | |- preserves _ ?m => let h := head_of m in unfold h
  end.

Ltac guarded := repeat guard_step.

(** ** Steps that need a key *)

Lemma needs_bind_here {A B} P (m : M A) (k : A → M B) :
  needs P m → needs P (bind m k).
Proof.
  intros Hm st HP b st' Hrun.
  apply bind_val_inv in Hrun as (a & st1 & Hrun & _). by eapply Hm.
Qed.

Lemma needs_bind_later {A B} P (m : M A) (k : A → M B) :
  preserves (unless P) m → (∀ a, needs P (k a)) → needs P (bind m k).
Proof.
  intros Hm Hk st HP b st' Hrun.
  apply bind_val_inv in Hrun as (a & st1 & Hrun & Hk').
  specialize (Hm st). rewrite Hrun in Hm.
  by eapply (Hk a st1 (Hm HP)).
Qed.

Lemma needs_config_get key : needs (in_config key) (config_get key).
Proof.
  intros st HP a st'. unfold config_get, lift, getitem, in_config in *.
  destruct (config st !! key); [|done]. by destruct HP.
Qed.

Lemma needs_pool_get key : needs (in_pool key) (pool_get key).
Proof.
  intros st HP a st'. unfold pool_get, lift, getitem, in_pool in *.
  destruct (resource_pool st !! key); [|done]. by destruct HP.
Qed.

Lemma needs_if {A} P (c : bool) (m1 m2 : M A) :
  needs P m1 → needs P m2 → needs P (if c then m1 else m2).
Proof. by destruct c. Qed.

#[local] Instance unless_in_config_guarded key :
  Guarded (unless (in_config key)) (λ _, True) (λ k, k ≠ key) (λ _, True).
Proof.
  split; unfold unless, in_config; simpl; try done.
  - split; [by intros st | intros st1 st2 st3 H1 H2 H; by apply H2, H1].
  - intros k v st Hk _ Hn. by rewrite lookup_insert_ne.
Qed.

#[local] Instance unless_in_pool_guarded key :
  Guarded (unless (in_pool key)) (λ k, k ≠ key) (λ _, True) (λ _, True).
Proof.
  split; unfold unless, in_pool; simpl; try done.
  - split; [by intros st | intros st1 st2 st3 H1 H2 H; by apply H2, H1].
  - intros k v st Hk Hn. by rewrite lookup_insert_ne.
Qed.

Ltac need :=
  lazymatch goal with
  | |- needs _ (config_get _) => apply needs_config_get
  | |- needs _ (pool_get _) => apply needs_pool_get
  | |- needs _ (bind _ _) =>
      first [ apply needs_bind_here; solve [need]
            | apply needs_bind_later; [solve [guarded] | intros ?; need] ]
  | |- needs _ (if _ then _ else _) => apply needs_if; need
  | |- needs _ (match ?x with _ => _ end) => destruct x; need
  | |- needs _ ?m => let h := head_of m in unfold h; need
  end.


(** ** Bodies without early return *)

Lemma straight_bind {A B} (m : M A) (k : A → M B) :
  straight m → (∀ a, straight (k a)) → straight (bind m k).
Proof.
  intros Hm Hk st st'. unfold bind.
  destruct (m st) as [a st1|st1|e] eqn:Hrun; [apply Hk | | done].
  by destruct (Hm st st1).
Qed.

Lemma straight_ret {A} (a : A) : straight (ret a).
Proof. by intros st st'. Qed.

Lemma straight_raise {A} e : straight (@raise A e).
Proof. by intros st st'. Qed.

Lemma straight_lift {A} (r : res A) : straight (lift r).
Proof. intros st st'. by destruct r. Qed.

Lemma straight_check r : straight (check r).
Proof. destruct r; [apply straight_raise | apply straight_ret]. Qed.

Lemma straight_when c m : straight m → straight (when c m).
Proof. destruct c; [done | intros _; apply straight_ret]. Qed.

Lemma straight_pool_get key : straight (pool_get key).
Proof. intros st. unfold pool_get. apply straight_lift. Qed.

Lemma straight_config_get key : straight (config_get key).
Proof. intros st. unfold config_get. apply straight_lift. Qed.

Lemma straight_call b name : straight (call b name).
Proof. intros st st'. unfold call. by destruct (b name st). Qed.

Lemma straight_for_each keys body :
  (∀ key, straight (body key)) → straight (for_each keys body).
Proof.
  intros Hb. induction keys as [|key keys' IH]; simpl.
  - apply straight_ret.
  - apply straight_bind; [apply Hb | intros _; apply IH].
Qed.

Ltac straight_step :=
  lazymatch goal with
  | |- straight (bind _ _) => apply straight_bind; [| intros ?]
  | |- straight (ret _) => apply straight_ret
  | |- straight (raise _) => apply straight_raise
  | |- straight (lift _) => apply straight_lift
  | |- straight (check _) => apply straight_check
  | |- straight (pool_get _) => apply straight_pool_get
  | |- straight (config_get _) => apply straight_config_get
  | |- straight (call _ _) => apply straight_call
  | |- straight (when _ _) => apply straight_when
  | |- straight (for_each _ _) => apply straight_for_each; intros ?
  | |- straight get_pool => by intros ? ?
  | |- straight get_config => by intros ? ?
  | |- straight (config_get_default _ _) => by intros ? ?
  | |- straight (pool_set _ _) => by intros ? ?
  | |- straight (config_set _ _) => by intros ? ?
  | |- straight (new_node _ _) => by intros ? ?
  | |- straight (set_input _ _ _) => by intros ? ?
  | |- straight (connect _ _ _ _) => by intros ? ?
  | |- straight (match ?x with _ => _ end) => destruct x
  | |- straight ?m => let h := head_of m in unfold h
  end.

Ltac straighten := repeat straight_step.

Lemma run_body_straight m st st' :
  straight m → run_body m st = Ok st' → m st = Val tt st'.
Proof.
  intros Hm. unfold run_body.
  destruct (m st) as [[] st1|st1|e] eqn:Hrun; [by intros [= ->] | | done].
  by destruct (Hm st st1).
Qed.

Lemma qap_anatomical_spatial_wiring_straight name :
  straight (qap_anatomical_spatial_wiring name).
Proof. unfold qap_anatomical_spatial_wiring. straighten. Qed.

Lemma qap_functional_wiring_straight E name :
  straight (qap_functional_wiring E name).
Proof. unfold qap_functional_wiring. straighten. Qed.

Lemma needs_in_config key (m : M unit) st st' :
  needs (in_config key) m → m st = Val tt st' → is_Some (config st !! key).
Proof.
  intros Hm Hrun. destruct (config st !! key) as [v|] eqn:Hk; [done|].
  destruct (Hm st) with tt st'; [|done].
  unfold in_config. rewrite Hk. by intros [? ?].
Qed.

Lemma needs_in_pool key (m : M unit) st st' :
  needs (in_pool key) m → m st = Val tt st' →
  is_Some (resource_pool st !! key).
Proof.
  intros Hm Hrun. destruct (resource_pool st !! key) as [v|] eqn:Hk; [done|].
  destruct (Hm st) with tt st'; [|done].
  unfold in_pool. rewrite Hk. by intros [? ?].
Qed.

(** ** What the anatomical and the functional builder read *)

Lemma qap_anatomical_spatial_workflow_wiring E name rp cfg objs wf :
  check_config_settings E cfg "anatomical_template" = None →
  is_Some (rp !! "anat_fav_artifacts_background") →
  is_Some (rp !! "anat_gm_mask") →
  is_Some (rp !! "anat_wm_mask") →
  is_Some (rp !! "anat_csf_mask") →
  qap_anatomical_spatial_workflow E name (State rp cfg objs wf)
  = run_body (qap_anatomical_spatial_wiring name)
      (State rp (if has_key cfg "exclude_zeros" then cfg
                 else <[ "exclude_zeros" := PyBool false ]> cfg) objs wf).
Proof.
  intros Hc Hfav Hgm Hwm Hcsf.
  apply absent_false in Hfav, Hgm, Hwm, Hcsf.
  unfold qap_anatomical_spatial_workflow, run_body.
  erewrite bind_val; [|reflexivity]. cbn [config]. rewrite Hc.
  erewrite bind_val; [|reflexivity].
  erewrite bind_val; [|apply default_config_run].
  erewrite bind_val; [|by apply prerequisite_bound].
  erewrite bind_val; [done|].
  apply prerequisite_bound. cbn [resource_pool]. by rewrite Hgm, Hwm, Hcsf.
Qed.

Lemma qap_functional_workflow_wiring E name st :
  is_Some (resource_pool st !! "func_inverted_brain_mask") →
  is_Some (resource_pool st !! "func_motion_correct") →
  is_Some (resource_pool st !! "func_coordinate_transformation")
    ∨ is_Some (resource_pool st !! "mcflirt_rel_rms") →
  is_Some (resource_pool st !! "func_mean") →
  is_Some (resource_pool st !! "func_SFS") →
  qap_functional_workflow E name st
  = run_body (qap_functional_wiring E name) st.
Proof.
  intros Hinv Hmc Hxfm Hmean Hsfs. unfold qap_functional_workflow.
  apply absent_false in Hinv, Hmc, Hmean, Hsfs.
  rewrite run_body_bound; [|done].
  rewrite run_body_bound.
  2:{ rewrite Hmc. simpl. destruct Hxfm as [H|H]; apply absent_false in H;
      rewrite H; [done | by rewrite andb_false_r]. }
  rewrite run_body_bound; [|done].
  rewrite run_body_bound; [done|done].
Qed.

Ltac needed :=
  lazymatch goal with
  | |- is_Some (config _ !! _) =>
      eapply needs_in_config; [|eassumption]
  | |- is_Some (resource_pool _ !! _) =>
      eapply needs_in_pool; [|eassumption]
  end;
  lazymatch goal with
  | |- needs _ ?m => let h := head_of m in unfold h; need
  end.

(** X1: a call of the anatomical builder that finds its four checked
    resources in the pool and returns has read six settings of the
    config, [site_name] among them although the builder tests for it
    before its first use, and six resources that no check looks for. *)
Theorem anatomical_requirements (E : externals) (name : string)
    (st st' : state) :
  check_config_settings E (config st) "anatomical_template" = None →
  is_Some (resource_pool st !! "anat_fav_artifacts_background") →
  is_Some (resource_pool st !! "anat_gm_mask") →
  is_Some (resource_pool st !! "anat_wm_mask") →
  is_Some (resource_pool st !! "anat_csf_mask") →
  qap_anatomical_spatial_workflow E name st = Ok st' →
  Forall (λ key, is_Some (config st !! key))
    ["subject_id"; "session_id"; "scan_id"; "run_name"; "output_directory";
     "site_name"]
  ∧ Forall (λ key, is_Some (resource_pool st !! key))
      ["starter"; "anat_reorient"; "anat_qap_head_mask";
       "anat_qap_bg_head_mask"; "anat_whole_head_mask";
       "anat_skull_only_mask"].
Proof.
  destruct st as [rp cfg objs wf]. cbn [resource_pool config].
  intros Hc Hfav Hgm Hwm Hcsf Hrun.
  rewrite qap_anatomical_spatial_workflow_wiring in Hrun by done.
  apply run_body_straight in Hrun;
    [|apply qap_anatomical_spatial_wiring_straight].
  set (cfg' := if has_key cfg "exclude_zeros" then cfg
              else <[ "exclude_zeros" := PyBool false ]> cfg) in *.
  assert (Hcfg : ∀ key, key ≠ "exclude_zeros" →
            needs (in_config key) (qap_anatomical_spatial_wiring name) →
            is_Some (cfg !! key)).
  { intros key Hne Hn.
    pose proof (needs_in_config key _ _ _ Hn Hrun) as Hk. simpl in Hk.
    unfold cfg' in Hk. destruct (has_key cfg "exclude_zeros"); [done|].
    by rewrite lookup_insert_ne in Hk. }
  assert (Hpool : ∀ key,
            needs (in_pool key) (qap_anatomical_spatial_wiring name) →
            is_Some (rp !! key)).
  { intros key Hn. exact (needs_in_pool key _ _ _ Hn Hrun). }
  split.
  - repeat constructor; (apply Hcfg; [done|]);
      unfold qap_anatomical_spatial_wiring; need.
  - repeat constructor; apply Hpool;
      unfold qap_anatomical_spatial_wiring; need.
Qed.

Lemma anatomical_requirements_witness :
  Forall (λ key, is_Some (config anat_ready !! key))
    ["subject_id"; "session_id"; "scan_id"; "run_name"; "output_directory";
     "site_name"]
  ∧ Forall (λ key, is_Some (resource_pool anat_ready !! key))
      ["starter"; "anat_reorient"; "anat_qap_head_mask";
       "anat_qap_bg_head_mask"; "anat_whole_head_mask";
       "anat_skull_only_mask"].
Proof.
  apply (anatomical_requirements stalling_externals "_" anat_ready anat_done);
    vm_compute; eauto.
Defined.

(** X2: a call of the functional builder that finds its prerequisites in
    the pool and returns has read seven settings of the config:
    [site_name] and [write_report] are among them, although the builder
    treats both as optional where it first uses them. *)
Theorem functional_requirements (E : externals) (name : string)
    (st st' : state) :
  is_Some (resource_pool st !! "func_inverted_brain_mask") →
  is_Some (resource_pool st !! "func_motion_correct") →
  is_Some (resource_pool st !! "func_coordinate_transformation")
    ∨ is_Some (resource_pool st !! "mcflirt_rel_rms") →
  is_Some (resource_pool st !! "func_mean") →
  is_Some (resource_pool st !! "func_SFS") →
  qap_functional_workflow E name st = Ok st' →
  Forall (λ key, is_Some (config st !! key))
    ["subject_id"; "session_id"; "scan_id"; "run_name"; "output_directory";
     "site_name"; "write_report"]
  ∧ Forall (λ key, is_Some (resource_pool st !! key))
      ["func_reorient"; "func_brain_mask"].
Proof.
  intros Hinv Hmc Hxfm Hmean Hsfs Hrun.
  rewrite qap_functional_workflow_wiring in Hrun by done.
  apply run_body_straight in Hrun; [|apply qap_functional_wiring_straight].
  split; repeat constructor; needed.
Qed.

Lemma functional_requirements_witness :
  Forall (λ key, is_Some (config func_ready !! key))
    ["subject_id"; "session_id"; "scan_id"; "run_name"; "output_directory";
     "site_name"; "write_report"]
  ∧ Forall (λ key, is_Some (resource_pool func_ready !! key))
      ["func_reorient"; "func_brain_mask"].
Proof.
  apply (functional_requirements stalling_externals "_" func_ready func_done);
    vm_compute; eauto.
Defined.

(** ** Every builder preserves a guarded relation *)

Ltac split_guards :=
  repeat match goal with
         | H : Forall _ (_ :: _) |- _ =>
             apply Forall_cons_1 in H; destruct H as [? H]
         | H : Forall _ [] |- _ => clear H
         end.

Section AllGuarded.

Context {R : relation state} {pool_ok cfg_ok port_ok : string → Prop}.
Context `{!Guarded R pool_ok cfg_ok port_ok}.
Variable E : externals.
Hypothesis HE : externals_preserve R E.
Hypothesis Hport : ∀ port, port_ok port.

Ltac guarded_side := first [ apply Hport | assumption ].

Ltac guard_body :=
  repeat (lazymatch goal with
          | |- preserves _ (pool_set _ _) => apply guard_pool_set; assumption
          | |- preserves _ (default_config _ _) =>
              apply guard_default_config; assumption
          | |- preserves _ (set_input _ _ _) =>
              apply guard_set_input; apply Hport
          | _ => guard_step
          end).

Lemma qap_mask_workflow_guarded :
  Forall pool_ok mask_outputs → builder_preserves R (qap_mask_workflow E).
Proof.
  intros Hk. unfold mask_outputs in Hk. split_guards.
  destruct HE as (? & ? & ? & ? & ? & ?).
  intros name. apply guard_run_body. unfold qap_mask_wiring. guard_body.
Qed.

Lemma qap_gather_header_info_guarded data_type :
  pool_ok (data_type +:+ "_header_info") →
  builder_preserves R (qap_gather_header_info data_type).
Proof. intros Hk name. apply guard_run_body. guard_body. Qed.

Lemma calculate_artifacts_background_guarded :
  Forall pool_ok artifacts_outputs →
  builder_preserves R (calculate_artifacts_background E).
Proof.
  intros Hk.
  assert (Hmask : builder_preserves R (qap_mask_workflow E)).
  { apply qap_mask_workflow_guarded. unfold artifacts_outputs in Hk.
    by apply Forall_app in Hk as [? _]. }
  unfold artifacts_outputs, mask_outputs in Hk. simpl in Hk. split_guards.
  destruct HE as (? & ? & ? & ? & ? & ?).
  intros name. apply guard_run_body.
  unfold calculate_artifacts_wiring. guard_body.
Qed.

Lemma calculate_temporal_std_guarded :
  pool_ok "func_temporal_std_map" → builder_preserves R calculate_temporal_std.
Proof. intros Hk name. apply guard_run_body. guard_body. Qed.

Lemma calculate_sfs_workflow_guarded :
  Forall pool_ok sfs_outputs → builder_preserves R calculate_sfs_workflow.
Proof.
  intros Hk. unfold sfs_outputs in Hk. split_guards.
  assert (builder_preserves R calculate_temporal_std)
    by by apply calculate_temporal_std_guarded.
  intros name. apply guard_run_body. unfold calculate_sfs_wiring. guard_body.
Qed.

Lemma qap_anatomical_spatial_workflow_guarded :
  Forall pool_ok anatomical_outputs → cfg_ok "exclude_zeros" →
  builder_preserves R (qap_anatomical_spatial_workflow E).
Proof.
  intros Hk Hc.
  assert (Hart : builder_preserves R (calculate_artifacts_background E)).
  { apply calculate_artifacts_background_guarded.
    unfold anatomical_outputs in Hk. by apply Forall_app in Hk as [? _]. }
  unfold anatomical_outputs, artifacts_outputs, mask_outputs in Hk.
  simpl in Hk. split_guards.
  destruct HE as (? & ? & ? & ? & ? & ?).
  intros name. apply guard_run_body.
  unfold qap_anatomical_spatial_wiring, anatomical_report. guard_body.
Qed.

Lemma qap_functional_workflow_guarded :
  Forall pool_ok functional_outputs → cfg_ok "ghost_direction" →
  builder_preserves R (qap_functional_workflow E).
Proof.
  intros Hk Hc.
  assert (Hsfs : builder_preserves R calculate_sfs_workflow).
  { apply calculate_sfs_workflow_guarded.
    unfold functional_outputs in Hk. by apply Forall_app in Hk as [? _]. }
  unfold functional_outputs, sfs_outputs in Hk. simpl in Hk. split_guards.
  destruct HE as (? & ? & ? & ? & ? & ?).
  intros name. apply guard_run_body.
  unfold qap_functional_wiring, functional_report, grayplot_report.
  guard_body.
Qed.

End AllGuarded.

(** ** A builder writes its own resources only *)

#[local] Instance pool_key_kept_guarded key :
  Guarded (pool_key_kept key) (λ k, k ≠ key) (λ _, True) (λ _, True).
Proof.
  split; unfold pool_key_kept; simpl; try done.
  - split; [by intros st | intros st1 st2 st3 H1 H2; congruence].
  - intros k v st Hk. by rewrite lookup_insert_ne.
Qed.

#[local] Instance config_key_kept_guarded key :
  Guarded (config_key_kept key) (λ _, True) (λ k, k ≠ key) (λ _, True).
Proof.
  split; unfold config_key_kept; simpl; try done.
  - split; [by intros st | intros st1 st2 st3 H1 H2; congruence].
  - intros k v st Hk _. by rewrite lookup_insert_ne.
Qed.

Ltac not_listed :=
  cbv [mask_outputs artifacts_outputs anatomical_outputs sfs_outputs
       functional_outputs app];
  rewrite !not_elem_of_cons; repeat split; (done || apply not_elem_of_nil).

Lemma not_elem_of_guards key (keys : list string) :
  key ∉ keys → Forall (λ k, k ≠ key) keys.
Proof.
  intros Hk. apply Forall_forall. intros k Hin ->. done.
Qed.

(** X3: the anatomical builders leave alone every resource that is not
    among their outputs, as long as the builders of the other modules
    leave it alone: the head mask builder writes its three masks, the
    artifacts builder two resources more, the anatomical builder the
    mosaics and its report besides. *)
Theorem anatomical_builders_write_own_outputs (E : externals) (key : string)
    (name : string) (st st' : state) :
  externals_preserve (pool_key_kept key) E →
  (key ∉ mask_outputs →
   qap_mask_workflow E name st = Ok st' →
   resource_pool st' !! key = resource_pool st !! key)
  ∧ (key ∉ artifacts_outputs →
     calculate_artifacts_background E name st = Ok st' →
     resource_pool st' !! key = resource_pool st !! key)
  ∧ (key ∉ anatomical_outputs →
     qap_anatomical_spatial_workflow E name st = Ok st' →
     resource_pool st' !! key = resource_pool st !! key).
Proof.
  intros HE. split; [|split]; intros Hk%not_elem_of_guards.
  - by apply (qap_mask_workflow_guarded (R := pool_key_kept key)).
  - by apply (calculate_artifacts_background_guarded (R := pool_key_kept key)).
  - by apply (qap_anatomical_spatial_workflow_guarded
                (R := pool_key_kept key)).
Qed.

Lemma anatomical_builders_write_own_outputs_witness :
  resource_pool mask_done !! "anat_reorient"
  = resource_pool mask_ready !! "anat_reorient".
Proof.
  apply (proj1 (anatomical_builders_write_own_outputs stalling_externals
                  "anat_reorient" "_" mask_ready mask_done
                  (stalling_externals_preserve _))).
  - not_listed.
  - vm_compute. reflexivity.
Defined.

(** X4: the functional builders leave alone every resource that is not
    among their outputs, as long as the builders of the other modules
    leave it alone: [calculate_temporal_std] writes
    [func_temporal_std_map], [calculate_sfs_workflow] the three resources
    of the signal fluctuation sensitivity besides, and the functional
    builder the mosaic, its report and the two resources of the gray
    plot besides. *)
Theorem functional_builders_write_own_outputs (E : externals) (key : string)
    (name : string) (st st' : state) :
  externals_preserve (pool_key_kept key) E →
  (key ≠ "func_temporal_std_map" →
   calculate_temporal_std name st = Ok st' →
   resource_pool st' !! key = resource_pool st !! key)
  ∧ (key ∉ sfs_outputs →
     calculate_sfs_workflow name st = Ok st' →
     resource_pool st' !! key = resource_pool st !! key)
  ∧ (key ∉ functional_outputs →
     qap_functional_workflow E name st = Ok st' →
     resource_pool st' !! key = resource_pool st !! key).
Proof.
  intros HE. split; [|split].
  - intros Hk.
    apply (calculate_temporal_std_guarded (R := pool_key_kept key)); done.
  - intros Hk%not_elem_of_guards.
    by apply (calculate_sfs_workflow_guarded (R := pool_key_kept key)).
  - intros Hk%not_elem_of_guards.
    by apply (qap_functional_workflow_guarded E (R := pool_key_kept key)).
Qed.

Lemma functional_builders_write_own_outputs_witness :
  resource_pool func_done !! "func_reorient"
  = resource_pool func_ready !! "func_reorient".
Proof.
  apply (proj2 (proj2 (functional_builders_write_own_outputs stalling_externals
                  "func_reorient" "_" func_ready func_done
                  (stalling_externals_preserve _)))).
  - not_listed.
  - vm_compute. reflexivity.
Defined.

Lemma builder_call_guarded {R : relation state}
    {pool_ok cfg_ok port_ok : string → Prop}
    `{!Guarded R pool_ok cfg_ok port_ok} E name st st' :
  externals_preserve R E → (∀ port, port_ok port) → (∀ key, pool_ok key) →
  cfg_ok "exclude_zeros" → cfg_ok "ghost_direction" →
  builder_call E name st st' → R st st'.
Proof.
  intros HE Hport Hpool Hez Hgd.
  assert (Hall : ∀ keys, Forall pool_ok keys)
    by (intros keys; by apply Forall_forall).
  intros [H|[[dt H]|[H|[H|[H|[H|H]]]]]]; revert H.
  - by apply qap_mask_workflow_guarded.
  - by apply qap_gather_header_info_guarded.
  - by apply calculate_artifacts_background_guarded.
  - by apply calculate_temporal_std_guarded.
  - by apply calculate_sfs_workflow_guarded.
  - by apply qap_anatomical_spatial_workflow_guarded.
  - by apply (qap_functional_workflow_guarded E).
Qed.

(** X5: the only settings that a builder call may add to the config are
    [exclude_zeros] and [ghost_direction]: the binding of every other
    key, bound or not, is the same after the call, as long as the
    builders of the other modules leave it alone. *)
Theorem builders_write_two_settings (E : externals) (key : string)
    (name : string) (st st' : state) :
  externals_preserve (config_key_kept key) E →
  key ≠ "exclude_zeros" → key ≠ "ghost_direction" →
  builder_call E name st st' →
  config st' !! key = config st !! key.
Proof.
  intros HE Hez Hgd.
  apply (builder_call_guarded (R := config_key_kept key)); done.
Qed.

Lemma builders_write_two_settings_witness :
  config func_done !! "num_processors" = config func_ready !! "num_processors".
Proof.
  apply (builders_write_two_settings stalling_externals "num_processors" "_"
           func_ready func_done (stalling_externals_preserve _)); [done..|].
  do 6 right. vm_compute. reflexivity.
Defined.

(** ** The graph only grows *)

#[local] Instance graph_kept_guarded :
  Guarded graph_kept (λ _, True) (λ _, True) (λ _, True).
Proof.
  split; unfold graph_kept; simpl.
  - split.
    + intros st. split; [done|]. intros i n Hn. by exists n.
    + intros st1 st2 st3 [Hw12 Hn12] [Hw23 Hn23]. split; [by etrans|].
      intros i n Hn.
      destruct (Hn12 i n Hn) as (n2 & Hn2 & Hname2 & Hi2 & Hd2).
      destruct (Hn23 i n2 Hn2) as (n3 & Hn3 & Hname3 & Hi3 & Hd3).
      exists n3. split; [done|]. split; [congruence|].
      split; [congruence | by etrans].
  - intros key v st _. split; [done|]. intros i n Hn. by exists n.
  - intros key v st _ _. split; [done|]. intros i n Hn. by exists n.
  - intros n0 st. split; [done|]. intros i n Hn. exists n.
    split; [by apply lookup_app_l_Some | done].
  - intros j port v st _. split; [done|]. intros i n Hn.
    destruct (decide (j = i)) as [->|Hne].
    + exists (with_input port v n). rewrite list_lookup_alter_eq, Hn.
      split; [done|]. split; [done|]. split; [done|].
      simpl. rewrite dom_insert. set_solver.
    + exists n. by rewrite list_lookup_alter_ne.
  - intros e st. split; [by apply prefix_app_r|]. intros i n Hn. by exists n.
Qed.



(** ** The test for a stall *)

Lemma py_eqb_refl v : py_eqb v v = true.
Proof.
  revert v. fix IH 1. intros [|b|z|s|l|l|i|f]; simpl.
  - done.
  - by destruct b.
  - apply Z.eqb_refl.
  - apply String.eqb_refl.
  - revert l. fix IHl 1. intros [|x l]; [done|].
    rewrite (IH x). simpl. apply IHl.
  - revert l. fix IHl 1. intros [|x l]; [done|].
    rewrite (IH x). simpl. apply IHl.
  - apply Nat.eqb_refl.
  - apply String.eqb_refl.
Qed.

Lemma dict_eqb_refl (d : dict) : dict_eqb d d = true.
Proof.
  unfold dict_eqb. rewrite Nat.eqb_refl. simpl.
  apply forallb_forall. intros [k v] Hin%list_elem_of_In%elem_of_map_to_list.
  simpl. rewrite Hin. apply py_eqb_refl.
Qed.

Lemma dict_eqb_dom (d e : dict) : dict_eqb d e = true → dom d = dom e.
Proof.
  unfold dict_eqb. intros [Hsize Hall]%andb_prop.
  apply Nat.eqb_eq in Hsize. rewrite forallb_forall in Hall.
  assert (Hsub : dom d ⊆ dom e); [|
    apply (set_subseteq_size_eq _ _ Hsub); rewrite !size_dom; lia].
  - intros k [v Hk]%elem_of_dom.
    specialize (Hall (k, v)). simpl in Hall.
    apply elem_of_dom. destruct (e !! k); [done|].
    discriminate Hall. by apply list_elem_of_In, elem_of_map_to_list.
Qed.

Lemma prerequisite_new_key missing b name st st' key :
  missing (resource_pool st) = true →
  b name st = Ok st' →
  resource_pool st !! key = None →
  is_Some (resource_pool st' !! key) →
  prerequisite missing b name st = Val tt st'.
Proof.
  intros Hm Hb Hnone Hsome. apply prerequisite_progress; [done..|].
  destruct (dict_eqb _ _) eqn:He; [|done].
  apply dict_eqb_dom in He.
  apply elem_of_dom in Hsome. rewrite He in Hsome.
  apply elem_of_dom in Hsome as [v Hv]. congruence.
Qed.

(** X7: a prerequisite builder that hands the pool back as it was makes
    its caller return, whatever it did to the workflow; one that binds
    a key that was not bound lets its caller go on. *)
Theorem stall_test_follows_the_pool (missing : dict → bool) (b : builder)
    (name : string) (st st' : state) :
  missing (resource_pool st) = true →
  b name st = Ok st' →
  (resource_pool st' = resource_pool st →
   prerequisite missing b name st = Return st')
  ∧ (∀ key, resource_pool st !! key = None →
            is_Some (resource_pool st' !! key) →
            prerequisite missing b name st = Val tt st').
Proof.
  intros Hm Hb. split.
  - intros Heq. apply prerequisite_stalls; [done..|].
    rewrite Heq. apply dict_eqb_refl.
  - intros key. by apply prerequisite_new_key.
Qed.

Lemma stall_test_follows_the_pool_witness :
  prerequisite (absent "anat_linear_xfm") stalls "_" mask_stalled
  = Return mask_stalled.
Proof.
  apply (proj1 (stall_test_follows_the_pool (absent "anat_linear_xfm") stalls
                  "_" mask_stalled mask_stalled eq_refl eq_refl)).
  reflexivity.
Defined.

(** ** [run_qap_mask] *)

(** X8: [run_qap_mask] looks the head mask up under [qap_head_mask], a key
    that no builder of the file binds: unless a builder of the other
    modules binds it, the call ends in the error of the head mask
    builder or in [KeyError: 'qap_head_mask'], whatever its arguments. *)
Theorem run_qap_mask_reads_unbound_key (E : externals) (cwd : string)
    (objects : list node) (anatomical_reorient allineate_out_xfm : pyval)
    (out_dir : option string) (run : bool) :
  externals_preserve (pool_key_kept "qap_head_mask") E →
  run_qap_mask E cwd objects anatomical_reorient allineate_out_xfm out_dir run
  = match qap_mask_workflow E "_"
            (State (<[ "allineate_linear_xfm" := allineate_out_xfm ]>
                      (<[ "anatomical_reorient" := anatomical_reorient ]> ∅))
                   ∅ objects []) with
    | Ok _ => Err (KeyError "qap_head_mask")
    | Err e => Err e
    end.
Proof.
  intros HE. unfold run_qap_mask.
  set (st := State _ _ _ _).
  pose proof (qap_mask_workflow_guarded (R := pool_key_kept "qap_head_mask")
                (pool_ok := λ key, key ≠ "qap_head_mask")
                (cfg_ok := λ _, True) (port_ok := λ _, True)
                E HE (λ _, I)) as Hmask.
  unfold run_body, bind, call.
  destruct (qap_mask_workflow E "_" st) as [st1|e] eqn:Hb; [|done].
  assert (Hkey : resource_pool st1 !! "qap_head_mask" = None).
  { rewrite (Hmask ltac:(unfold mask_outputs; repeat constructor; done)
                   "_" st st1 Hb).
    reflexivity. }
  unfold new_node, set_input, pool_get, lift, getitem. simpl.
  by rewrite Hkey.
Qed.

Lemma run_qap_mask_reads_unbound_key_witness :
  run_qap_mask stalling_externals "/home" [] (PyStr "/anat.nii.gz")
               (PyStr "/xfm.aff12.1D") None true
  = Err (KeyError "qap_head_mask").
Proof.
  rewrite (run_qap_mask_reads_unbound_key stalling_externals).
  - reflexivity.
  - repeat split; intros name st st' [= <-]; reflexivity.
Defined.

(** ** The sweep of [run_nipype_workflow] over the pool *)

Lemma datasink_outcome base_dir key st v :
  resource_pool st !! key = Some v →
  (∃ st', datasink base_dir key st = Val tt st'
          ∧ resource_pool st' = resource_pool st)
  ∨ datasink base_dir key st = Raise ValueError.
Proof.
  intros Hv. unfold datasink, bind, new_node, set_input, pool_get, lift,
    getitem, when, connect, ret. simpl. rewrite Hv.
  destruct v as [| | | |items| | |]; simpl; try (left; by eexists).
  destruct items as [|a [|b [|c items]]]; simpl;
    try (by right); left; by eexists.
Qed.

Lemma datasink_rejects base_dir key st items :
  resource_pool st !! key = Some (PyTuple items) →
  length items ≠ 2 →
  datasink base_dir key st = Raise ValueError.
Proof.
  intros Hv Hlen. unfold datasink, bind, new_node, set_input, pool_get, lift,
    getitem, when, connect, ret. simpl. rewrite Hv. simpl.
  by destruct items as [|a [|b [|c items]]].
Qed.

Lemma for_each_datasink_rejects base_dir keys key items st :
  (∀ k, k ∈ keys → is_Some (resource_pool st !! k)) →
  key ∈ keys →
  resource_pool st !! key = Some (PyTuple items) →
  length items ≠ 2 →
  for_each keys (datasink base_dir) st = Raise ValueError.
Proof.
  intros Hkeys Hin Hv Hlen. revert st Hkeys Hv.
  induction keys as [|k keys' IH]; intros st Hkeys Hv.
  - by apply elem_of_nil in Hin.
  - cbn [for_each]. destruct (decide (k = key)) as [->|Hne].
    + apply bind_raise. by eapply datasink_rejects.
    + destruct (Hkeys k) as [w Hw]; [left|].
      destruct (datasink_outcome base_dir k st w Hw)
        as [(st' & Hrun & Hpool)|Hraise].
      * rewrite (bind_val _ _ _ _ _ Hrun). apply IH.
        -- apply elem_of_cons in Hin as [?|?]; [congruence|done].
        -- intros k' Hk'. rewrite Hpool. apply Hkeys. by right.
        -- by rewrite Hpool.
      * by apply bind_raise.
Qed.

(** X9: when the builder hands back a pool in which some key is bound to a
    tuple that is not a pair, [run_nipype_workflow] ends in a
    [ValueError], with [run] set or not. *)
Theorem sweep_rejects_other_tuples (b : builder) (func_name cwd : string)
    (rp : dict) (objects : list node) (config_dict : option dict)
    (run : bool) (st : state) (key : string) (items : list pyval) :
  b "_" (State rp (if falsy_config config_dict then ∅
                   else default ∅ config_dict) objects []) = Ok st →
  resource_pool st !! key = Some (PyTuple items) →
  length items ≠ 2 →
  run_nipype_workflow b func_name cwd rp objects config_dict run
  = Err ValueError.
Proof.
  intros Hb Hv Hlen. unfold run_nipype_workflow.
  assert (Hsweep : materialize (join2 cwd func_name) st = Raise ValueError).
  { unfold materialize, bind, get_pool.
    eapply for_each_datasink_rejects; [|  |exact Hv|exact Hlen].
    - intros k [w Hk]%list_elem_of_fmap. destruct Hk as [-> Hk].
      destruct w as [k w]. apply elem_of_map_to_list in Hk. by eexists.
    - unfold keys. apply list_elem_of_fmap. exists (key, PyTuple items).
      split; [done|]. by apply elem_of_map_to_list. }
  unfold run_body, bind, call. rewrite Hb, Hsweep. done.
Qed.

Lemma sweep_rejects_other_tuples_witness :
  run_nipype_workflow stalls "f" "/home"
    {[ "a" := PyTuple [PyNode 0; PyStr "out"; PyStr "more"] ]} [] None false
  = Err ValueError.
Proof.
  eapply (sweep_rejects_other_tuples stalls "f" "/home" _ [] None false _ "a").
  - reflexivity.
  - reflexivity.
  - simpl. lia.
Defined.

(** ** [calculate_temporal_std] and [calculate_sfs_workflow] *)








(** ** [qap_gather_header_info] *)

#[local] Instance pool_kept_guarded :
  Guarded pool_kept (λ _, False) (λ _, True) (λ _, True).
Proof.
  split; unfold pool_kept; simpl; try done.
  split; [by intros st | intros st1 st2 st3 H1 H2; congruence].
Qed.

#[local] Instance input_kept_guarded port :
  Guarded (input_kept port) (λ _, True) (λ _, True) (λ p, p ≠ port).
Proof.
  split; unfold input_kept; simpl.
  - split.
    + intros st i n Hn. by exists n.
    + intros st1 st2 st3 H12 H23 i n Hn.
      destruct (H12 i n Hn) as (n2 & Hn2 & Hp2).
      destruct (H23 i n2 Hn2) as (n3 & Hn3 & Hp3).
      exists n3. split; [done | congruence].
  - intros key v st _ i n Hn. by exists n.
  - intros key v st _ _ i n Hn. by exists n.
  - intros n0 st i n Hn. exists n. split; [by apply lookup_app_l_Some | done].
  - intros j p v st Hp i n Hn.
    destruct (decide (j = i)) as [->|Hne].
    + exists (with_input p v n). rewrite list_lookup_alter_eq, Hn.
      split; [done|]. simpl. by rewrite lookup_insert_ne.
    + exists n. by rewrite list_lookup_alter_ne.
  - intros e st i n Hn. by exists n.
Qed.








(** ** [run_qap_mask_wf] *)

Lemma datasink_concrete base_dir key st v :
  resource_pool st !! key = Some v →
  is_tuple v = false →
  ∃ st', datasink base_dir key st = Val tt st'
       ∧ resource_pool st' = resource_pool st
       ∧ config st' = config st
       ∧ workflow st' = workflow st.
Proof.
  intros Hv Ht. unfold datasink, bind, new_node, set_input, pool_get, lift,
    getitem, when, connect, ret. simpl. rewrite Hv. simpl. rewrite Ht.
  by eexists.
Qed.

Lemma for_each_datasink_concrete base_dir keys st :
  (∀ key, key ∈ keys →
          ∃ v, resource_pool st !! key = Some v ∧ is_tuple v = false) →
  ∃ st', for_each keys (datasink base_dir) st = Val tt st'
       ∧ resource_pool st' = resource_pool st
       ∧ config st' = config st
       ∧ workflow st' = workflow st.
Proof.
  revert st. induction keys as [|key keys' IH]; intros st Hkeys.
  - by exists st.
  - destruct (Hkeys key) as (v & Hv & Ht); [left|].
    destruct (datasink_concrete base_dir key st v Hv Ht)
      as (st1 & Hrun & Hp & Hc & Hw).
    destruct (IH st1) as (st2 & Hrun2 & Hp2 & Hc2 & Hw2).
    { intros k Hk. rewrite Hp. apply Hkeys. by right. }
    exists st2. cbn [for_each]. rewrite (bind_val _ _ _ _ _ Hrun).
    split; [done|]. split; [congruence|]. split; congruence.
Qed.

Lemma default_config_bound key v st :
  ∃ st', default_config key v st = Val tt st'
       ∧ is_Some (config st' !! key)
       ∧ resource_pool st' = resource_pool st
       ∧ workflow st' = workflow st.
Proof.
  unfold default_config, bind, get_config, when, config_set, ret.
  simpl. destruct (has_key (config st) key) eqn:Hk; simpl.
  - exists st. split; [done|]. split; [by apply has_key_true | done].
  - eexists. split; [done|]. simpl. rewrite lookup_insert_eq.
    split; [by eexists | done].
Qed.

Lemma mask_wf_pool_lookup resource_filename a x key :
  key ≠ "anatomical_reorient" → key ≠ "allineate_linear_xfm" →
  mask_wf_pool resource_filename a x !! key = None.
Proof.
  intros H1 H2. unfold mask_wf_pool. by rewrite !lookup_insert_ne.
Qed.

(** X12: [run_qap_mask_wf] puts its two files in the pool under the keys
    [anatomical_reorient] and [allineate_linear_xfm], which the head mask
    builder does not read: whatever the arguments, the registration
    builder is called first. Its error is the error of the call; when it
    hands the pool back unchanged, the call returns that pool and no
    edge beyond those of the registration builder, so no mask. *)
Theorem run_qap_mask_wf_registers_first (E : externals)
    (resource_filename : string → string) (cwd : string)
    (objects : list node) (anatomical_reorient allineate_linear_xfm : pyval) :
  let rp := mask_wf_pool resource_filename anatomical_reorient
                         allineate_linear_xfm in
  match afni_anatomical_linear_registration E "_" (State rp ∅ objects []) with
  | Err e =>
      run_qap_mask_wf E resource_filename cwd objects anatomical_reorient
                      allineate_linear_xfm = Err e
  | Ok st1 =>
      resource_pool st1 = rp →
      is_tuple anatomical_reorient = false →
      is_tuple allineate_linear_xfm = false →
      ∃ r, run_qap_mask_wf E resource_filename cwd objects
             anatomical_reorient allineate_linear_xfm = Ok r
         ∧ resource_pool (final r) = rp
         ∧ workflow (final r) = workflow st1
  end.
Proof.
  intros rp. set (st := State rp ∅ objects []).
  assert (Habs : absent "anat_linear_xfm" (resource_pool st) = true).
  { apply absent_true. by apply mask_wf_pool_lookup. }
  unfold run_qap_mask_wf, run_nipype_workflow. simpl falsy_config. cbv iota.
  fold rp. fold st.
  destruct (afni_anatomical_linear_registration E "_" st) as [st1|e] eqn:Hb.
  - intros Hpool Ha Hx.
    assert (Hmask : qap_mask_workflow E "_" st = Ok st1).
    { unfold qap_mask_workflow. apply run_body_stall; [done..|].
      rewrite Hpool. apply dict_eqb_refl. }
    destruct (for_each_datasink_concrete
                (join2 cwd "qap_mask_workflow") (keys (resource_pool st1)) st1)
      as (st2 & Hsweep & Hp2 & Hc2 & Hw2).
    { intros key [[k v] [-> Hk%elem_of_map_to_list]]%list_elem_of_fmap.
      simpl. exists v. split; [done|].
      rewrite Hpool in Hk. unfold rp, mask_wf_pool in Hk.
      apply lookup_insert_Some in Hk as [[_ <-]|[_ Hk]].
      - destruct (py_truth allineate_linear_xfm); done.
      - apply lookup_insert_Some in Hk as [[_ <-]|[_ Hk]]; [|done].
        destruct (py_truth anatomical_reorient); done. }
    destruct (default_config_bound "num_processors" (PyInt 1) st2)
      as (st3 & Hdef & [n Hn] & Hp3 & Hw3).
    unfold materialize, run_body, bind, call, get_pool, when.
    rewrite Hmask. cbv beta iota. rewrite Hsweep. cbv beta iota.
    rewrite Hdef. cbv beta iota.
    unfold getitem. rewrite Hn. eexists. split; [reflexivity|]. simpl.
    split; congruence.
  - assert (Hmask : qap_mask_workflow E "_" st = Err e).
    { unfold qap_mask_workflow, run_body.
      by rewrite (bind_raise _ _ _ _ (prerequisite_raises _ _ _ _ _ Habs Hb)). }
    unfold run_body, bind, call. by rewrite Hmask.
Qed.

Lemma run_qap_mask_wf_registers_first_witness :
  ∃ r, run_qap_mask_wf stalling_externals (λ file, "/qap/" +:+ file) "/home" []
         PyNone (PyStr "/xfm.aff12.1D") = Ok r
     ∧ workflow (final r) = [].
Proof.
  destruct (run_qap_mask_wf_registers_first stalling_externals
              (λ file, "/qap/" +:+ file) "/home" [] PyNone
              (PyStr "/xfm.aff12.1D") eq_refl eq_refl eq_refl)
    as (r & Hr & _ & Hw).
  exists r. split; [exact Hr | exact Hw].
Defined.

(** ** What the smaller builders read *)

(** X13: called on its own, the artifacts builder that reaches its wiring
    and returns has read [exclude_zeros], for which only the anatomical
    builder sets a default; the header builder that returns has read the
    three identifiers of the scan and the three settings of the output
    path. *)
Theorem smaller_builders_read_settings (E : externals)
    (data_type name : string) (st st' : state) :
  (is_Some (resource_pool st !! "anat_qap_head_mask") →
   is_Some (resource_pool st !! "anat_reorient") →
   calculate_artifacts_background E name st = Ok st' →
   is_Some (config st !! "exclude_zeros"))
  ∧ (qap_gather_header_info data_type name st = Ok st' →
     Forall (λ key, is_Some (config st !! key))
       ["subject_id"; "session_id"; "scan_id"; "output_directory"; "run_name";
        "site_name"]).
Proof.
  split.
  - intros Hmask Hreorient Hrun. unfold calculate_artifacts_background in Hrun.
    rewrite !run_body_bound in Hrun by by apply absent_false.
    apply run_body_straight in Hrun;
      [|unfold calculate_artifacts_wiring; straighten].
    needed.
  - intros Hrun. apply run_body_straight in Hrun; [|straighten].
    repeat (apply Forall_cons_2;
            [cbv beta; eapply needs_in_config; [|exact Hrun]; need|]).
    apply Forall_nil_2.
Qed.

Lemma smaller_builders_read_settings_witness :
  Forall (λ key, is_Some (config header_ready !! key))
    ["subject_id"; "session_id"; "scan_id"; "output_directory"; "run_name";
     "site_name"].
Proof.
  apply (proj2 (smaller_builders_read_settings stalling_externals
                  "anatomical" "_" header_ready
                  (state_of (qap_gather_header_info "anatomical" "_"
                               header_ready) header_ready))).
  vm_compute. reflexivity.
Defined.

(** * Dispatch, stalls and bound resources *)

(** ** Every dispatch follows the rule *)

Lemma run_body_dispatch missing b name (rest : M unit) st :
  run_body (prerequisite missing b name ;; rest) st
  = dispatch missing b name (run_body rest) st.
Proof.
  unfold dispatch.
  destruct (missing (resource_pool st)) eqn:Hm;
    [|by apply run_body_bound].
  destruct (b name st) as [st'|e] eqn:Hb.
  - destruct (dict_eqb (resource_pool st') (resource_pool st)) eqn:He.
    + by apply run_body_stall.
    + unfold run_body.
      by rewrite (bind_val _ _ _ _ _ (prerequisite_progress _ _ _ _ _ Hm Hb He)).
  - unfold run_body.
    by rewrite (bind_raise _ _ _ _ (prerequisite_raises _ _ _ _ _ Hm Hb)).
Qed.

Lemma dispatch_ext missing b name (k k' : state → res state) st :
  (∀ s, k s = k' s) →
  dispatch missing b name k st = dispatch missing b name k' st.
Proof.
  intros Hk. unfold dispatch.
  destruct (missing (resource_pool st)); [|apply Hk].
  destruct (b name st) as [st'|e]; [|done].
  destruct (dict_eqb _ _); [done | apply Hk].
Qed.

Lemma dispatch_skips missing b name k st :
  missing (resource_pool st) = false → dispatch missing b name k st = k st.
Proof. unfold dispatch. by intros ->. Qed.



Lemma qap_mask_workflow_dispatch E name st :
  qap_mask_workflow E name st
  = dispatch (absent "anat_linear_xfm")
      (afni_anatomical_linear_registration E) name
      (dispatch (absent "anat_reorient") (anatomical_reorient_workflow E) name
         (run_body (qap_mask_wiring name))) st.
Proof.
  unfold qap_mask_workflow. rewrite run_body_dispatch.
  apply dispatch_ext. intros s. apply run_body_dispatch.
Qed.

Lemma calculate_artifacts_background_dispatch E name st :
  calculate_artifacts_background E name st
  = dispatch (absent "anat_qap_head_mask") (qap_mask_workflow E) name
      (dispatch (absent "anat_reorient") (anatomical_reorient_workflow E) name
         (run_body (calculate_artifacts_wiring name))) st.
Proof.
  unfold calculate_artifacts_background. rewrite run_body_dispatch.
  apply dispatch_ext. intros s. apply run_body_dispatch.
Qed.

Lemma calculate_sfs_workflow_dispatch name st :
  calculate_sfs_workflow name st
  = dispatch (absent "func_temporal_std_map") calculate_temporal_std name
      (run_body (calculate_sfs_wiring name)) st.
Proof. unfold calculate_sfs_workflow. apply run_body_dispatch. Qed.

Lemma anatomical_prologue E (rest : M unit) st :
  run_body (cfg <- get_config ;;
            check (check_config_settings E cfg "anatomical_template") ;;
            default_config "exclude_zeros" (PyBool false) ;;
            rest) st
  = match check_config_settings E (config st) "anatomical_template" with
    | Some e => Err e
    | None => run_body rest (with_exclude_zeros st)
    end.
Proof.
  destruct st as [rp cfg objs wf]. unfold with_exclude_zeros, run_body.
  cbn [resource_pool config nodes workflow].
  erewrite bind_val; [|reflexivity]. cbn [config].
  destruct (check_config_settings E cfg "anatomical_template") as [e|].
  - by erewrite bind_raise.
  - erewrite bind_val; [|reflexivity].
    erewrite bind_val; [|apply default_config_run]. done.
Qed.

Lemma qap_anatomical_spatial_workflow_dispatch E name st :
  qap_anatomical_spatial_workflow E name st
  = match check_config_settings E (config st) "anatomical_template" with
    | Some e => Err e
    | None =>
        dispatch (absent "anat_fav_artifacts_background")
          (calculate_artifacts_background E) name
          (dispatch segmentation_missing (afni_segmentation_workflow E) name
             (run_body (qap_anatomical_spatial_wiring name)))
          (with_exclude_zeros st)
    end.
Proof.
  unfold qap_anatomical_spatial_workflow. rewrite anatomical_prologue.
  destruct (check_config_settings E (config st) "anatomical_template");
    [done|].
  rewrite run_body_dispatch.
  apply dispatch_ext. intros s. apply run_body_dispatch.
Qed.


(** ** A stall goes up the chain of callers *)






(** ** Where there is no dispatch *)







(** ** Prerequisites that are bound *)

(** C3, as the code has it: a dispatch whose test finds nothing missing
    leaves the state as it is and the builder goes on, whatever the
    builder of the prerequisite would do; so a builder that finds bound
    every key that its dispatches test runs its own wiring on the state
    it was given, and calls no other builder. The test is on one key at
    nine places, on the three masks of the segmentation together, and on
    the motion corrected image together with one of its two
    transforms. *)
Theorem bound_prerequisites_are_skipped (E : externals) (name : string)
    (st : state) :
  (∀ missing b (rest : M unit),
     missing (resource_pool st) = false →
     prerequisite missing b name st = Val tt st
     ∧ run_body (prerequisite missing b name ;; rest) st = run_body rest st)
  ∧ (is_Some (resource_pool st !! "anat_linear_xfm") →
     is_Some (resource_pool st !! "anat_reorient") →
     qap_mask_workflow E name st = run_body (qap_mask_wiring name) st)
  ∧ (is_Some (resource_pool st !! "anat_qap_head_mask") →
     is_Some (resource_pool st !! "anat_reorient") →
     calculate_artifacts_background E name st
     = run_body (calculate_artifacts_wiring name) st)
  ∧ (is_Some (resource_pool st !! "func_temporal_std_map") →
     calculate_sfs_workflow name st = run_body (calculate_sfs_wiring name) st)
  ∧ (is_Some (resource_pool st !! "anat_fav_artifacts_background") →
     is_Some (resource_pool st !! "anat_gm_mask") →
     is_Some (resource_pool st !! "anat_wm_mask") →
     is_Some (resource_pool st !! "anat_csf_mask") →
     qap_anatomical_spatial_workflow E name st
     = match check_config_settings E (config st) "anatomical_template" with
       | Some e => Err e
       | None => run_body (qap_anatomical_spatial_wiring name)
                          (with_exclude_zeros st)
       end)
  ∧ (is_Some (resource_pool st !! "func_inverted_brain_mask") →
     is_Some (resource_pool st !! "func_motion_correct") →
     is_Some (resource_pool st !! "func_coordinate_transformation")
       ∨ is_Some (resource_pool st !! "mcflirt_rel_rms") →
     is_Some (resource_pool st !! "func_mean") →
     is_Some (resource_pool st !! "func_SFS") →
     qap_functional_workflow E name st
     = run_body (qap_functional_wiring E name) st).
Proof.
  split; [|split; [|split; [|split; [|split]]]].
  - intros missing b rest Hm.
    split; [by apply prerequisite_bound | by apply run_body_bound].
  - intros Hx%absent_false Hr%absent_false.
    rewrite qap_mask_workflow_dispatch. by rewrite !dispatch_skips.
  - intros Hh%absent_false Hr%absent_false.
    rewrite calculate_artifacts_background_dispatch.
    by rewrite !dispatch_skips.
  - intros Ht%absent_false.
    rewrite calculate_sfs_workflow_dispatch. by rewrite dispatch_skips.
  - intros Hf%absent_false Hgm%absent_false Hwm%absent_false
      Hcsf%absent_false.
    rewrite qap_anatomical_spatial_workflow_dispatch.
    destruct (check_config_settings E (config st) "anatomical_template");
      [done|].
    rewrite dispatch_skips by done.
    rewrite dispatch_skips; [done|].
    unfold segmentation_missing, with_exclude_zeros.
    cbn [resource_pool]. by rewrite Hgm, Hwm, Hcsf.
  - intros Hi Hmc Hxfm Hmean Hsfs.
    by apply qap_functional_workflow_wiring.
Qed.

Lemma bound_prerequisites_are_skipped_witness :
  qap_mask_workflow (Externals (λ _ _, Err ValueError) (λ _ _, Err ValueError)
                       stalls stalls stalls stalls (λ _ _, None) (λ _ _, None))
    "_" mask_ready
  = run_body (qap_mask_wiring "_") mask_ready.
Proof.
  destruct (bound_prerequisites_are_skipped
              (Externals (λ _ _, Err ValueError) (λ _ _, Err ValueError)
                 stalls stalls stalls stalls (λ _ _, None) (λ _ _, None))
              "_" mask_ready) as (_ & Hmask & _).
  apply Hmask; vm_compute; eexists; reflexivity.
Defined.

(** A bound resource that is built again: the grey matter mask, when
    the white matter mask is missing, and the whole head mask, when the
    head mask is missing. *)
Lemma bound_mask_is_rebuilt :
  is_Some (resource_pool anat_state_without_wm !! "anat_gm_mask")
  ∧ qap_anatomical_spatial_workflow segmentation_raises "_"
      anat_state_without_wm
    = Err (Failure "afni_segmentation_workflow")
  ∧ resource_pool whole_head_mask_given !! "anat_whole_head_mask"
    = Some (PyStr "/mine.nii.gz")
  ∧ resource_pool
      (state_of (calculate_artifacts_background stalling_externals "_"
                   whole_head_mask_given) whole_head_mask_given)
    !! "anat_whole_head_mask"
    = Some (reference 4 "out_file").
Proof.
  split; [vm_compute; by eexists|].
  repeat split; vm_compute; reflexivity.
Qed.

(** ** The [starter] resource is unpacked without a test *)




